(** * Session and authentication state of the admin panel

    A shallow embedding of the client-side session manager:

    - [AuthContext]    : contexts/AuthContext.tsx (reducer, initializer,
                         login / logout / setUser / clearError);
    - [Api]            : services/api.ts (response interceptor, apiRequest);
    - [UseAuthManager] : hooks/useAuthManager.ts (token refresh, session
                         validation, cross-tab listeners).

    React state is modelled by explicit state passing: a [World] holds the
    reducer state together with the two Web Storage areas, and [dispatch]
    applies the reducer.  Asynchronous service calls are modelled by the
    result they settle with. *)

From Stdlib Require Import ZArith NArith Ascii.
From stdpp Require Import gmap strings list fin_maps.

Set Warnings "-register-all".

(** ** JavaScript values *)

Module JS.

(** IEEE doubles, as far as truthiness is concerned: a finite number is
    [(-1)^negative * mantissa * 2^exponent]. *)
Inductive Number : Type :=
| Finite (negative : bool) (mantissa : N) (exponent : Z)
| Infinity (negative : bool)
| NaN.

(** The values [JSON.parse] can return, plus [undefined].  An object keeps
    its properties in insertion order. *)
Inductive Value : Type :=
| Undefined
| Null
| Bool (b : bool)
| Num (n : Number)
| Str (s : string)
| Arr (items : list Value)
| Obj (fields : list (string * Value)).

Definition truthy_number (n : Number) : bool :=
  match n with
  | Finite _ m _ => negb (N.eqb m 0)
  | Infinity _ => true
  | NaN => false
  end.

(** ToBoolean. *)
Definition truthy (v : Value) : bool :=
  match v with
  | Undefined | Null => false
  | Bool b => b
  | Num n => truthy_number n
  | Str s => negb (String.eqb s "")
  | Arr _ | Obj _ => true
  end.

(** [a || b]. *)
Definition or (a b : Value) : Value := if truthy a then a else b.

Fixpoint lookup_field (k : string) (fields : list (string * Value)) : Value :=
  match fields with
  | [] => Undefined
  | (k', v) :: rest => if String.eqb k k' then v else lookup_field k rest
  end.

(** Property read [v.k], for the keys the program reads ([ok], [data],
    [user], [token], [error], [message]); none of them is a built-in property
    of a string, a number, a boolean or an array.  [None] is the TypeError
    raised by a read on [null] or [undefined]. *)
Definition get (v : Value) (k : string) : option Value :=
  match v with
  | Undefined | Null => None
  | Obj fields => Some (lookup_field k fields)
  | Bool _ | Num _ | Str _ | Arr _ => Some Undefined
  end.

(** A value of type [T | null] held as an option, read back as a value. *)
Definition of_nullable (o : option Value) : Value :=
  match o with
  | Some v => v
  | None => Null
  end.

(** Exceptions the modelled code can raise. *)
Inductive Exception : Type :=
| SyntaxError
| TypeError
| Error (message : string).

(** Completion of a block that may throw. *)
Inductive Completion (A : Type) : Type :=
| Normal (a : A)
| Throw (e : Exception).

Arguments Normal {A} a.
Arguments Throw {A} e.

Definition bind {A B : Type} (c : Completion A) (k : A -> Completion B)
  : Completion B :=
  match c with
  | Normal a => k a
  | Throw e => Throw e
  end.

End JS.

Notation "'let*' x ':=' c 'in' k" := (JS.bind c (fun x => k))
  (at level 10, x name, c at level 100, k at level 200).

(** ** Web Storage *)

(** [localStorage] and [sessionStorage]: string keys to string values.
    [getItem k] is [s !! k], [setItem k v] is [<[k:=v]> s] and
    [removeItem k] is [delete k s]; a storage area accepts every read,
    write and removal (no quota or security error). *)
Abbreviation Storage := (gmap string string).

(** ** contexts/AuthContext.tsx: the reducer *)

Module AuthContext.

Section Reducer.

(** [AdminUser] and the token type ([string] in the source) are opaque to the
    reducer. *)
Context {AdminUser Token : Type}.

(** [AuthState & { error: string | null }]; [null] is [None]. *)
Record AuthState : Type := mkAuthState {
  user : option AdminUser;
  token : option Token;
  isAuthenticated : bool;
  loading : bool;
  error : option string;
}.

Inductive AuthAction : Type :=
| LOGIN_START
| LOGIN_SUCCESS (payload_user : AdminUser) (payload_token : Token)
| LOGIN_FAILURE (payload : string)
| LOGOUT
| SET_USER (payload : AdminUser)
| SET_LOADING (payload : bool).

Definition initialState : AuthState :=
  {| user := None;
     token := None;
     isAuthenticated := false;
     loading := true;
     error := None |}.

Definition authReducer (state : AuthState) (action : AuthAction) : AuthState :=
  match action with
  | LOGIN_START =>
      {| user := user state;
         token := token state;
         isAuthenticated := isAuthenticated state;
         loading := true;
         error := None |}
  | LOGIN_SUCCESS u t =>
      {| user := Some u;
         token := Some t;
         isAuthenticated := true;
         loading := false;
         error := None |}
  | LOGIN_FAILURE msg =>
      {| user := None;
         token := None;
         isAuthenticated := false;
         loading := false;
         error := Some msg |}
  | LOGOUT =>
      {| user := None;
         token := None;
         isAuthenticated := false;
         loading := false;
         error := None |}
  | SET_USER u =>
      {| user := Some u;
         token := token state;
         isAuthenticated := true;
         loading := false;
         error := error state |}
  | SET_LOADING b =>
      {| user := user state;
         token := token state;
         isAuthenticated := isAuthenticated state;
         loading := b;
         error := error state |}
  end.

(** The state after a sequence of dispatched actions. *)
Definition run (state : AuthState) (actions : list AuthAction) : AuthState :=
  fold_left authReducer actions state.

Definition is_SET_USER (a : AuthAction) : bool :=
  match a with
  | SET_USER _ => true
  | _ => false
  end.

(** [isAuthenticated] follows the identity, and a token is never held
    without it. *)
Definition follows_user (s : AuthState) : Prop :=
  (isAuthenticated s = true <-> is_Some (user s))
  /\ (is_Some (token s) -> isAuthenticated s = true).

(** The invariant as the data model words it. *)
Definition both_present (s : AuthState) : Prop :=
  isAuthenticated s = true <-> (is_Some (user s) /\ is_Some (token s)).

(** The actions whose case spreads [state] without assigning [token]. *)
Definition keeps_token (a : AuthAction) : bool :=
  match a with
  | LOGIN_START | SET_USER _ | SET_LOADING _ => true
  | LOGIN_SUCCESS _ _ | LOGIN_FAILURE _ | LOGOUT => false
  end.

(** The actions whose case spreads [state] without assigning [user]. *)
Definition keeps_user (a : AuthAction) : bool :=
  match a with
  | LOGIN_START | SET_LOADING _ => true
  | LOGIN_SUCCESS _ _ | LOGIN_FAILURE _ | LOGOUT | SET_USER _ => false
  end.

End Reducer.

Arguments AuthState : clear implicits.
Arguments AuthAction : clear implicits.

(** *** The provider: reducer state plus the two storage areas *)

(** At run time the casts of the source ([as AdminUser], [any]) are not
    checked: the state holds whatever value [JSON.parse] or the backend
    produced. *)
Record World : Type := mkWorld {
  auth : AuthState JS.Value JS.Value;
  localStorage : Storage;
  sessionStorage : Storage;
}.

(** The logged-out, non-loading session. *)
Definition logged_out : AuthState JS.Value JS.Value :=
  {| user := None; token := None; isAuthenticated := false;
     loading := false; error := None |}.

Definition dispatch (w : World) (action : AuthAction JS.Value JS.Value) : World :=
  {| auth := authReducer (auth w) action;
     localStorage := localStorage w;
     sessionStorage := sessionStorage w |}.

Definition set_localStorage (w : World) (s : Storage) : World :=
  {| auth := auth w; localStorage := s; sessionStorage := sessionStorage w |}.

Definition set_sessionStorage (w : World) (s : Storage) : World :=
  {| auth := auth w; localStorage := localStorage w; sessionStorage := s |}.

(** Truthiness of a [string | null] read from storage. *)
Definition truthy_raw (raw : option string) : bool :=
  match raw with
  | Some s => negb (String.eqb s "")
  | None => false
  end.

(** [localStorage.getItem('admin_remember_me') === 'true'], in a browser
    (where [typeof window !== 'undefined'] holds). *)
Definition remember_me (ls : Storage) : bool :=
  bool_decide (ls !! "admin_remember_me" = Some "true").

(** [remember ? localStorage : sessionStorage]. *)
Definition selected (remember : bool) (w : World) : Storage :=
  if remember then localStorage w else sessionStorage w.

(** What an awaited service call settles with. *)
Inductive ServiceOutcome : Type :=
| Resolved (response : JS.Value)
| Threw (e : JS.Exception).

(** An asynchronous service call: it may change the world before it settles
    (the API client's interceptors run inside it). *)
Definition ServiceCall : Type := World -> World * ServiceOutcome.

Section Provider.

(** Built-ins of the platform.  [JSON_parse] is [None] where [JSON.parse]
    throws a SyntaxError; [JSON_stringify] is [None] where [JSON.stringify]
    returns [undefined]; [ToString] is the string conversion done by
    [new Error(v)]; [engine_message] is the message text of a built-in
    error. *)
Variable JSON_parse : string -> option JS.Value.
Variable JSON_stringify : JS.Value -> option string.
Variable ToString : JS.Value -> string.
Variable engine_message : JS.Exception -> string.

(** [setToStorage] of utils, which is not among the source files. *)
Variable setToStorage : string -> JS.Value -> World -> World.

Definition message (e : JS.Exception) : string :=
  match e with
  | JS.Error m => m
  | _ => engine_message e
  end.

Definition parse (raw : string) : JS.Completion JS.Value :=
  match JSON_parse raw with
  | Some v => JS.Normal v
  | None => JS.Throw JS.SyntaxError
  end.

(** [raw ? JSON.parse(raw) : null]. *)
Definition parse_if_present (raw : option string) : JS.Completion JS.Value :=
  match raw with
  | Some s => if truthy_raw raw then parse s else JS.Normal JS.Null
  | None => JS.Normal JS.Null
  end.

(** The string [storage.setItem(key, JSON.stringify(v))] stores. *)
Definition stringify_item (v : JS.Value) : string :=
  match JSON_stringify v with
  | Some s => s
  | None => "undefined"
  end.

(** The [try] block of [initializeAuth]. *)
Definition initializeAuth_try (w : World) : JS.Completion World :=
  let remember := remember_me (localStorage w) in
  let storage := selected remember w in
  let tokenRaw := storage !! "admin_token" in
  let userRaw := storage !! "admin_user" in
  let* token := parse_if_present tokenRaw in
  let* user := parse_if_present userRaw in
  if JS.truthy token && JS.truthy user
  then JS.Normal (dispatch w (LOGIN_SUCCESS user token))
  else JS.Normal (dispatch w (SET_LOADING false)).

Definition initializeAuth (w : World) : World :=
  match initializeAuth_try w with
  | JS.Normal w' => w'
  | JS.Throw _ => dispatch w (SET_LOADING false)
  end.

(** The provider on mount: the reducer starts from [initialState] and the
    effect runs [initializeAuth] once. *)
Definition mount (ls ss : Storage) : World :=
  initializeAuth
    {| auth := initialState; localStorage := ls; sessionStorage := ss |}.

Definition read (v : JS.Value) (k : string) : JS.Completion JS.Value :=
  match JS.get v k with
  | Some x => JS.Normal x
  | None => JS.Throw JS.TypeError
  end.

(** The storage writes of a successful [login]. *)
Definition store_session (user token : JS.Value) (w : World) : World :=
  let remember := remember_me (localStorage w) in
  if remember
  then
    let w1 := set_localStorage w
                (<["admin_user" := stringify_item user]>
                   (<["admin_token" := stringify_item token]> (localStorage w))) in
    set_sessionStorage w1
      (delete "admin_user" (delete "admin_token" (sessionStorage w1)))
  else
    let w1 := set_sessionStorage w
                (<["admin_user" := stringify_item user]>
                   (<["admin_token" := stringify_item token]> (sessionStorage w))) in
    set_localStorage w1
      (delete "admin_user" (delete "admin_token" (localStorage w1))).

(** The value of [response.ok && response.data]: when it is truthy it is
    [response.data]. *)
Definition ok_and_data (response : JS.Value) : JS.Completion JS.Value :=
  let* ok := read response "ok" in
  if JS.truthy ok then read response "data" else JS.Normal ok.

(** The [try] block of [login], after the service call has settled. *)
Definition login_try (o : ServiceOutcome) (w : World) : JS.Completion World :=
  match o with
  | Threw e => JS.Throw e
  | Resolved response =>
      let* data := ok_and_data response in
      if JS.truthy data
      then
        let* user := read data "user" in
        let* token := read data "token" in
        JS.Normal (dispatch (store_session user token w) (LOGIN_SUCCESS user token))
      else
        let* err := read response "error" in
        JS.Throw (JS.Error (ToString (JS.or err (JS.Str "Login failed"))))
  end.

(** [login]: the resulting world, and the error it rethrows if any. *)
Definition login (authService_login : ServiceCall) (w : World)
  : World * option JS.Exception :=
  let w0 := dispatch w LOGIN_START in
  let '(w1, o) := authService_login w0 in
  match login_try o w1 with
  | JS.Normal w2 => (w2, None)
  | JS.Throw e => (dispatch w1 (LOGIN_FAILURE (message e)), Some e)
  end.

(** [logout]: both storage areas are purged, then LOGOUT is dispatched.  The
    detached call to the backend's logout endpoint is not followed. *)
Definition logout (w : World) : World :=
  let w1 := set_localStorage w
              (delete "admin_user" (delete "admin_token" (localStorage w))) in
  let w2 := set_sessionStorage w1
              (delete "admin_user" (delete "admin_token" (sessionStorage w1))) in
  dispatch w2 LOGOUT.

Definition setUser (user : JS.Value) (w : World) : World :=
  dispatch (setToStorage "admin_user" user w) (SET_USER user).

Definition clearError (w : World) : World :=
  dispatch w (LOGIN_FAILURE "").

End Provider.

End AuthContext.

(** ** services/api.ts: the API client *)

Module Api.

Import AuthContext.

(** What the HTTP request of the axios client settles with: a response with
    a success status and its body, or an AxiosError with
    [error.response] (status and body; absent on a network failure) and
    [error.message]. *)
Inductive AxiosResult : Type :=
| Fulfilled (data : JS.Value)
| Rejected (response : option (Z * JS.Value)) (error_message : string).

Definition is_401 (response : option (Z * JS.Value)) : bool :=
  match response with
  | Some (status, _) => Z.eqb status 401
  | None => false
  end.

(** The request was answered with status 401. *)
Definition is_unauthorized (r : AxiosResult) : bool :=
  match r with
  | Fulfilled _ => false
  | Rejected response _ => is_401 response
  end.

Section Client.

Variable ToString : JS.Value -> string.
Variable engine_message : JS.Exception -> string.

(** The listeners registered on [window] for the event [auth:logout]. *)
Variable on_auth_logout : World -> World.

(** The four [removeItem] calls of the 401 branch. *)
Definition clearAuthData (w : World) : World :=
  let w1 := set_localStorage w
              (delete "admin_user" (delete "admin_token" (localStorage w))) in
  set_sessionStorage w1
    (delete "admin_user" (delete "admin_token" (sessionStorage w1))).

(** [apiError.error || apiError.message || 'An error occurred']. *)
Definition apiError_text (apiError : JS.Value) : JS.Completion JS.Value :=
  let* e := read apiError "error" in
  let* em := (if JS.truthy e then JS.Normal e else read apiError "message") in
  JS.Normal (JS.or em (JS.Str "An error occurred")).

(** The error handler of the response interceptor: the world after it and
    the error the request is rejected with. *)
Definition responseError (response : option (Z * JS.Value)) (w : World)
  : World * JS.Exception :=
  let w1 := if is_401 response
            then on_auth_logout (clearAuthData w)
            else w in
  match response with
  | None => (w1, JS.Error "Network error. Please check your connection.")
  | Some (_, data) =>
      match apiError_text data with
      | JS.Normal text => (w1, JS.Error (ToString text))
      | JS.Throw e => (w1, e)
      end
  end.

Definition failure (e : JS.Exception) : JS.Value :=
  JS.Obj [("ok", JS.Bool false); ("error", JS.Str (message engine_message e))].

Definition is_undefined (v : JS.Value) : bool :=
  match v with
  | JS.Undefined => true
  | _ => false
  end.

(** [apiRequest]: it never rejects; every error becomes [{ ok: false }]. *)
Definition apiRequest (r : AxiosResult) (w : World) : World * JS.Value :=
  match r with
  | Fulfilled responseData =>
      match read responseData "ok" with
      | JS.Normal ok =>
          if negb (is_undefined ok)
          then (w, responseData)
          else (w, JS.Obj [("ok", JS.Bool true); ("data", responseData)])
      | JS.Throw e => (w, failure e)
      end
  | Rejected response _ =>
      let '(w1, e) := responseError response w in
      (w1, failure e)
  end.

(** [authService.login], [me] and [refreshToken] differ by method and URL
    only. *)
Definition authService (r : AxiosResult) : ServiceCall :=
  fun w => let '(w1, response) := apiRequest r w in (w1, Resolved response).

End Client.

Section Request.

Variable JSON_parse : string -> option JS.Value.
Variable ToString : JS.Value -> string.

(** [token = JSON.parse(storage.getItem('admin_token') || 'null')] inside
    [try { } catch {}]: on a SyntaxError [token] keeps the value it had. *)
Definition read_token (storage : Storage) (token : JS.Value) : JS.Value :=
  let raw := storage !! "admin_token" in
  let text := match raw with
              | Some s => if truthy_raw raw then s else "null"
              | None => "null"
              end in
  match JSON_parse text with
  | Some v => v
  | None => token
  end.

(** The token the request interceptor settles on: [localStorage] first,
    [sessionStorage] when that gave nothing truthy. *)
Definition request_token (w : World) : JS.Value :=
  let token := read_token (localStorage w) JS.Null in
  if negb (JS.truthy token)
  then read_token (sessionStorage w) token
  else token.

(** [config.headers.Authorization] as the request interceptor leaves it;
    [None] when it does not set the header. *)
Definition Authorization (w : World) : option string :=
  let token := request_token w in
  if JS.truthy token
  then Some ("Bearer " +:+ ToString token)
  else None.

End Request.

End Api.

(** ** hooks/useAuthManager.ts *)

Module UseAuthManager.

Import AuthContext.

(** [StorageEvent], the two fields the listener reads. *)
Record StorageEvent : Type := mkStorageEvent {
  key : option string;
  newValue : option string;
}.

Definition handleLogoutEvent (w : World) : World := logout w.

Definition handleStorageChange (e : StorageEvent) (w : World) : World :=
  if bool_decide (key e = Some "admin_token") && bool_decide (newValue e = None)
  then logout w
  else w.

(** A refresh attempt succeeded: the call resolved with a response whose
    [ok] and [data] are both truthy.  Anything else (a non-success response,
    missing data, a thrown error) is a failure. *)
Definition refresh_succeeded (o : ServiceOutcome) : bool :=
  match o with
  | Resolved response =>
      match JS.get response "ok", JS.get response "data" with
      | Some ok, Some data => JS.truthy ok && JS.truthy data
      | _, _ => false
      end
  | Threw _ => false
  end.

Section Hook.

Variable JSON_stringify : JS.Value -> option string.
Variable setToStorage : string -> JS.Value -> World -> World.

(** The [try] block of [refreshToken] once the service call has settled in
    world [w]. *)
Definition refreshToken_try (o : ServiceOutcome) (w : World)
  : JS.Completion (World * bool) :=
  match o with
  | Threw e => JS.Throw e
  | Resolved response =>
      let* data := ok_and_data response in
      if JS.truthy data
      then
        let* token := read data "token" in
        JS.Normal
          (set_localStorage w
             (<["admin_token" := stringify_item JSON_stringify token]>
                (localStorage w)),
           true)
      else JS.Normal (w, false)
  end.

(** [refreshToken]; [auth_token] is the [auth.token] the callback closed
    over. *)
Definition refreshToken (auth_token : option JS.Value)
    (authService_refreshToken : ServiceCall) (w : World) : World * bool :=
  if negb (JS.truthy (JS.of_nullable auth_token))
  then (w, false)
  else
    let '(w1, o) := authService_refreshToken w in
    match refreshToken_try o w1 with
    | JS.Normal r => r
    | JS.Throw _ => (w1, false)
    end.

Definition validateSession_try (auth_user : option JS.Value)
    (o : ServiceOutcome) (w : World) : JS.Completion (World * bool) :=
  match o with
  | Threw e => JS.Throw e
  | Resolved response =>
      let* data := ok_and_data response in
      if JS.truthy data
      then
        if bool_decide (JSON_stringify (JS.of_nullable auth_user)
                        = JSON_stringify data)
        then JS.Normal (w, true)
        else JS.Normal (setUser setToStorage data w, true)
      else JS.Normal (w, false)
  end.

Definition validateSession (auth_token auth_user : option JS.Value)
    (authService_me : ServiceCall) (w : World) : World * bool :=
  if negb (JS.truthy (JS.of_nullable auth_token))
  then (w, false)
  else
    let '(w1, o) := authService_me w in
    match validateSession_try auth_user o w1 with
    | JS.Normal r => r
    | JS.Throw _ => (w1, false)
    end.

Definition handleTokenExpiration (auth_token : option JS.Value)
    (authService_refreshToken : ServiceCall) (w : World) : World * bool :=
  let '(w1, refreshed) := refreshToken auth_token authService_refreshToken w in
  if negb refreshed
  then (logout w1, false)
  else (w1, true).

(** One firing of the 50-minute interval.  The interval exists only while
    [auth.isAuthenticated] and [auth.token] hold. *)
Definition refreshInterval (authService_refreshToken : ServiceCall) (w : World)
  : World :=
  if isAuthenticated (auth w) && JS.truthy (JS.of_nullable (token (auth w)))
  then fst (handleTokenExpiration (token (auth w)) authService_refreshToken w)
  else w.

Definition handleVisibilityChange (visibilityState : string)
    (authService_me : ServiceCall) (w : World) : World :=
  if bool_decide (visibilityState = "visible") && isAuthenticated (auth w)
  then fst (validateSession (token (auth w)) (user (auth w)) authService_me w)
  else w.

End Hook.

(** What [useLogin().login] and [useLogout().logout] resolve with:
    [{ success: true }] or [{ success: false, error }]. *)
Inductive HookResult : Type :=
| Success
| Failure (error_text : string).

Section Session.

Variable JSON_stringify : JS.Value -> option string.
Variable ToString : JS.Value -> string.
Variable engine_message : JS.Exception -> string.

(** [useLogin().login]; [rememberMe] is the truthiness of
    [options?.rememberMe]. *)
Definition useLogin_login (rememberMe : bool) (authService_login : ServiceCall)
    (w : World) : World * HookResult :=
  match login JSON_stringify ToString engine_message authService_login w with
  | (w1, None) =>
      (if rememberMe
       then set_localStorage w1
              (<["admin_remember_me" := "true"]> (localStorage w1))
       else w1,
       Success)
  | (w1, Some e) => (w1, Failure (message engine_message e))
  end.

(** [useLogout().logout]: the world after it, the address assigned to
    [window.location.href] if any, and the result. *)
Definition useLogout_logout (redirectTo : option string) (w : World)
  : World * option string * HookResult :=
  let w1 := set_localStorage w
              (delete "admin_remember_me" (localStorage w)) in
  (logout w1,
   if truthy_raw redirectTo then redirectTo else None,
   Success).

End Session.

End UseAuthManager.

(** ** components/ProtectedRoute.tsx *)

Module ProtectedRoute.

Import AuthContext.

(** What the guard renders: the page loader, [fallback || <LoginForm />],
    or its children. *)
Inductive Rendered : Type :=
| PageLoader
| Fallback
| Children.

Definition ProtectedRoute (s : AuthState JS.Value JS.Value) : Rendered :=
  if loading s
  then PageLoader
  else if negb (isAuthenticated s)
          || negb (JS.truthy (JS.of_nullable (token s)))
          || negb (JS.truthy (JS.of_nullable (user s)))
       then Fallback
       else Children.

End ProtectedRoute.

(** ** pages/Settings.tsx: the manual token refresh *)

Module Settings.

Import AuthContext.

Section Page.

Variable JSON_stringify : JS.Value -> option string.
Variable engine_message : JS.Exception -> string.

(** [res.data?.token]. *)
Definition data_token (res : JS.Value) : JS.Completion JS.Value :=
  let* data := read res "data" in
  match JS.get data "token" with
  | Some t => JS.Normal t
  | None => JS.Normal JS.Undefined
  end.

(** The [try] block of [handleRefreshToken]: the world, and the value
    passed to [setError] if any ([None]: [setSaveSuccess(true)]). *)
Definition handleRefreshToken_try (o : ServiceOutcome) (w : World)
  : JS.Completion (World * option JS.Value) :=
  match o with
  | Threw e => JS.Throw e
  | Resolved res =>
      let* ok := read res "ok" in
      let* token := (if JS.truthy ok then data_token res else JS.Normal ok) in
      if JS.truthy token
      then
        JS.Normal
          (set_localStorage w
             (<["admin_token" := stringify_item JSON_stringify token]>
                (localStorage w)),
           None)
      else
        let* err := read res "error" in
        JS.Normal (w, Some (JS.or err (JS.Str "Failed to refresh token")))
  end.

Definition handleRefreshToken (authService_refreshToken : ServiceCall)
    (w : World) : World * option JS.Value :=
  let '(w1, o) := authService_refreshToken w in
  match handleRefreshToken_try o w1 with
  | JS.Normal r => r
  | JS.Throw e => (w1, Some (JS.Str (message engine_message e)))
  end.

End Page.

End Settings.

(** ** utils/config.ts *)

Module Config.

Import AuthContext.

(** [import.meta.env]: the variables that are set, as strings. *)
Abbreviation Env := (gmap string string).

(** [import.meta.env[key] || fallback]. *)
Definition env_or (env : Env) (key fallback : string) : string :=
  match env !! key with
  | Some s => if truthy_raw (Some s) then s else fallback
  | None => fallback
  end.

Definition apiBaseUrl (env : Env) : string :=
  env_or env "VITE_API_BASE_URL" "http://localhost:8000/api".

Definition requiredEnvVars : list string := ["VITE_API_BASE_URL"].

(** [missing.join(', ')]. *)
Fixpoint join (l : list string) : string :=
  match l with
  | [] => ""
  | [x] => x
  | x :: rest => x +:+ ", " +:+ join rest
  end.

Definition missing (env : Env) : list string :=
  List.filter (fun key => negb (truthy_raw (env !! key))) requiredEnvVars.

Definition validateConfig (env : Env) : JS.Completion unit :=
  if Nat.ltb 0 (length (missing env))
  then JS.Throw
         (JS.Error ("Missing required environment variables: "
                    +:+ join (missing env)))
  else JS.Normal tt.

End Config.

(** ** A concrete platform for running the model *)

(** JSON restricted to [null], the booleans, the empty object and string
    literals without escapes.  Used to evaluate the model on examples; the
    theorems below hold for every platform. *)
Module Sample.

Import AuthContext.

Definition dquote : ascii := "034"%char.

Definition quoted (s : string) : string :=
  String dquote (s +:+ String dquote "").

(** The characters up to the closing quote, which must end the text. *)
Fixpoint string_body (s : string) : option string :=
  match s with
  | EmptyString => None
  | String c rest =>
      if Ascii.eqb c dquote
      then (if String.eqb rest "" then Some "" else None)
      else if Ascii.eqb c "\"%char
           then None
           else option_map (String c) (string_body rest)
  end.

Definition JSON_parse (raw : string) : option JS.Value :=
  if String.eqb raw "null" then Some JS.Null
  else if String.eqb raw "true" then Some (JS.Bool true)
  else if String.eqb raw "false" then Some (JS.Bool false)
  else if String.eqb raw "{}" then Some (JS.Obj [])
  else match raw with
       | String c rest =>
           if Ascii.eqb c dquote
           then option_map JS.Str (string_body rest)
           else None
       | EmptyString => None
       end.

Definition JSON_stringify (v : JS.Value) : option string :=
  match v with
  | JS.Undefined => None
  | JS.Null => Some "null"
  | JS.Bool true => Some "true"
  | JS.Bool false => Some "false"
  | JS.Str s => Some (quoted s)
  | _ => Some "{}"
  end.

(** String conversion on the values of the sample platform: strings, the
    booleans, [null], [undefined] and plain objects.  Numbers and arrays are
    outside the sample. *)
Definition ToString (v : JS.Value) : string :=
  match v with
  | JS.Str s => s
  | JS.Bool true => "true"
  | JS.Bool false => "false"
  | JS.Null => "null"
  | JS.Undefined => "undefined"
  | JS.Obj _ => "[object Object]"
  | JS.Num _ | JS.Arr _ => ""
  end.

Definition engine_message (e : JS.Exception) : string :=
  match e with
  | JS.SyntaxError => "Unexpected token"
  | JS.TypeError => "Cannot read properties"
  | JS.Error m => m
  end.

Definition setToStorage (k : string) (v : JS.Value) (w : World) : World :=
  set_localStorage w
    (<[k := stringify_item JSON_stringify v]> (localStorage w)).

Definition admin : JS.Value := JS.Obj [].

(** A tab-scoped session: no "remember me" flag, the pair in
    [sessionStorage]. *)
Definition tab_session : World :=
  {| auth := {| user := Some admin;
                token := Some (JS.Str "old");
                isAuthenticated := true;
                loading := false;
                error := None |};
     localStorage := ∅;
     sessionStorage := <["admin_user" := "{}"]>
                         (<["admin_token" := quoted "old"]> ∅) |}.

(** The backend answers the refresh with a new token. *)
Definition refreshed : Api.AxiosResult :=
  Api.Fulfilled
    (JS.Obj [("ok", JS.Bool true);
             ("data", JS.Obj [("token", JS.Str "new")])]).

(** The backend answers with status 401. *)
Definition unauthorized : Api.AxiosResult :=
  Api.Rejected
    (Some (401%Z, JS.Obj [("message", JS.Str "Unauthenticated.")]))
    "Request failed with status code 401".

(** The backend answers with status 500. *)
Definition server_error : Api.AxiosResult :=
  Api.Rejected
    (Some (500%Z, JS.Obj [("message", JS.Str "Server Error")]))
    "Request failed with status code 500".

(** The API client as the hook sees it: its [auth:logout] event reaches
    [handleLogoutEvent]. *)
Definition client (r : Api.AxiosResult) : ServiceCall :=
  Api.authService ToString engine_message UseAuthManager.handleLogoutEvent r.

(** A browser that has never held a session. *)
Definition fresh : World :=
  {| auth := logged_out; localStorage := ∅; sessionStorage := ∅ |}.


(** The backend accepts the credentials. *)
Definition signed_in : Api.AxiosResult :=
  Api.Fulfilled
    (JS.Obj [("ok", JS.Bool true);
             ("data", JS.Obj [("user", admin); ("token", JS.Str "old")])]).

(** The backend answers the refresh without a token. *)
Definition refreshed_without_token : Api.AxiosResult :=
  Api.Fulfilled
    (JS.Obj [("ok", JS.Bool true);
             ("data", JS.Obj [("message", JS.Str "refreshed")])]).

(** The backend answers the validation with a renamed identity. *)
Definition renamed : Api.AxiosResult :=
  Api.Fulfilled
    (JS.Obj [("ok", JS.Bool true); ("data", JS.Str "renamed")]).

End Sample.

(** * Properties *)

(** ** The reducer *)

Section ReducerFacts.

Context {AdminUser Token : Type}.

Import AuthContext.

Local Abbreviation State := (AuthState AdminUser Token).
Local Abbreviation Action := (AuthAction AdminUser Token).

Lemma follows_user_initial : follows_user (initialState : State).
Proof.
  split; cbn.
  - split; [discriminate | intros [x Hx]; discriminate].
  - intros [x Hx]; discriminate.
Qed.

Lemma follows_user_step (s : State) (a : Action) :
  follows_user s -> follows_user (authReducer s a).
Proof.
  intros [Hu Ht].
  destruct a; split; cbn; try tauto; try (split; eauto; fail); eauto.
  all: try (split; [discriminate | intros [x Hx]; discriminate]).
  all: try (intros [x Hx]; discriminate).
Qed.

Lemma follows_user_run (actions : list Action) : forall s : State,
  follows_user s -> follows_user (run s actions).
Proof.
  induction actions as [|a actions IH]; intros s Hs; cbn.
  - exact Hs.
  - apply IH, follows_user_step, Hs.
Qed.

Lemma both_present_initial : both_present (initialState : State).
Proof.
  split; cbn; [discriminate | intros [[x Hx] _]; discriminate].
Qed.

Lemma both_present_step (s : State) (a : Action) :
  is_SET_USER a = false -> both_present s -> both_present (authReducer s a).
Proof.
  unfold both_present.
  intros Ha Hs. destruct a; cbn in *; try discriminate; try exact Hs.
  - split; [intros _; split; eauto | reflexivity].
  - split; [discriminate | intros [[x Hx] _]; discriminate].
  - split; [discriminate | intros [[x Hx] _]; discriminate].
Qed.

Lemma both_present_run (actions : list Action) : forall s : State,
  forallb (fun a => negb (is_SET_USER a)) actions = true ->
  both_present s -> both_present (run s actions).
Proof.
  induction actions as [|a actions IH]; intros s Hall Hs; cbn in *.
  - exact Hs.
  - apply andb_prop in Hall as [Ha Hall].
    apply IH; [exact Hall |].
    apply both_present_step; [| exact Hs].
    destruct (is_SET_USER a); [discriminate | reflexivity].
Qed.

(** C1 (amended).  After every sequence of reducer actions from the initial
    state, [isAuthenticated] is true iff [user] is non-null, and a non-null
    [token] implies [isAuthenticated]; when the sequence contains no
    SET_USER, [isAuthenticated] is true iff both [user] and [token] are
    non-null. *)
Theorem authenticated_iff_user (actions : list Action) :
  let s := run initialState actions in
  (isAuthenticated s = true <-> is_Some (user s))
  /\ (is_Some (token s) -> isAuthenticated s = true)
  /\ (is_Some (user s) /\ is_Some (token s) -> isAuthenticated s = true)
  /\ (forallb (fun a => negb (is_SET_USER a)) actions = true ->
      (isAuthenticated s = true <-> (is_Some (user s) /\ is_Some (token s)))).
Proof.
  intros s.
  destruct (follows_user_run actions initialState follows_user_initial)
    as [Hu Ht].
  split; [exact Hu |].
  split; [exact Ht |].
  split; [intros [_ H]; exact (Ht H) |].
  intros Hall.
  exact (both_present_run actions initialState Hall both_present_initial).
Qed.

(** C2 (amended).  SET_USER replaces the identity and leaves the token and
    the error as they were; it sets [isAuthenticated] to true and [loading]
    to false, so the flag keeps its value exactly when it was already
    true. *)
Theorem SET_USER_effect (s : State) (u : AdminUser) :
  let s' := authReducer s (SET_USER u) in
  user s' = Some u
  /\ token s' = token s
  /\ error s' = error s
  /\ isAuthenticated s' = true
  /\ loading s' = false
  /\ (isAuthenticated s' = isAuthenticated s <-> isAuthenticated s = true).
Proof.
  cbn. repeat split; congruence.
Qed.

(** C3.  LOGOUT is idempotent, and its result is the logged-out state:
    identity and credential cleared, not authenticated, not loading, no
    error. *)
Theorem LOGOUT_idempotent (s : State) :
  authReducer (authReducer s LOGOUT) LOGOUT = authReducer s LOGOUT
  /\ authReducer s LOGOUT
     = {| user := None; token := None; isAuthenticated := false;
          loading := false; error := None |}.
Proof.
  split; reflexivity.
Qed.

End ReducerFacts.

(** A run without SET_USER, on which the data model's invariant holds. *)
Lemma authenticated_iff_user_witness :
  let s := AuthContext.run AuthContext.initialState
             [AuthContext.LOGIN_START;
              AuthContext.LOGIN_SUCCESS Sample.admin (JS.Str "t");
              AuthContext.SET_LOADING false] in
  AuthContext.isAuthenticated s = true
  <-> (is_Some (AuthContext.user s) /\ is_Some (AuthContext.token s)).
Proof.
  apply (proj2 (proj2 (proj2
           (authenticated_iff_user
              [AuthContext.LOGIN_START;
               AuthContext.LOGIN_SUCCESS Sample.admin (JS.Str "t");
               AuthContext.SET_LOADING false])))).
  reflexivity.
Defined.

(** C1, as stated, fails: after SET_USER from the initial state the session
    is authenticated although the token is null. *)
Lemma SET_USER_authenticates_without_token :
  let s := AuthContext.run
             (AuthContext.initialState (AdminUser := JS.Value) (Token := JS.Value))
             [AuthContext.SET_USER Sample.admin] in
  ~ (AuthContext.isAuthenticated s = true
     <-> (AuthContext.user s <> None /\ AuthContext.token s <> None)).
Proof.
  cbn. intros [H _]. destruct (H eq_refl) as [_ Ht]. apply Ht. reflexivity.
Qed.

(** C2, as stated, fails: SET_USER on the initial (logged-out) state changes
    [isAuthenticated] from false to true. *)
Lemma SET_USER_changes_isAuthenticated :
  let s := AuthContext.initialState (AdminUser := JS.Value) (Token := JS.Value) in
  AuthContext.isAuthenticated s = false
  /\ AuthContext.isAuthenticated
       (AuthContext.authReducer s (AuthContext.SET_USER Sample.admin))
     <> AuthContext.isAuthenticated s.
Proof.
  cbn. split; [reflexivity | discriminate].
Qed.

(** ** The provider *)

Section ProviderFacts.

Import AuthContext.

Variable JSON_parse : string -> option JS.Value.

(** [JSON.parse('')] throws. *)
Hypothesis JSON_parse_empty : JSON_parse "" = None.

Local Abbreviation mount := (AuthContext.mount JSON_parse).

Lemma dispatch_SET_LOADING_initial (ls ss : Storage) :
  dispatch {| auth := initialState; localStorage := ls; sessionStorage := ss |}
           (SET_LOADING false)
  = {| auth := logged_out; localStorage := ls; sessionStorage := ss |}.
Proof. reflexivity. Qed.

Lemma parse_if_present_malformed (raw : string) :
  JSON_parse raw = None ->
  parse_if_present JSON_parse (Some raw) = JS.Normal JS.Null
  \/ parse_if_present JSON_parse (Some raw) = JS.Throw JS.SyntaxError.
Proof.
  intros Hbad. unfold parse_if_present, parse, truthy_raw.
  rewrite Hbad. destruct (String.eqb raw ""); cbn; auto.
Qed.

Lemma parse_if_present_valid (raw : string) (v : JS.Value) :
  JSON_parse raw = Some v ->
  parse_if_present JSON_parse (Some raw) = JS.Normal v.
Proof using JSON_parse_empty.
  intros Hv. unfold parse_if_present, parse, truthy_raw.
  destruct (String.eqb_spec raw "") as [-> | _]; cbn.
  - congruence.
  - rewrite Hv. reflexivity.
Qed.

(** The initializer's outcome is a function of the flag and of the two
    entries of the selected store. *)
Lemma mount_auth_selected (ls ss : Storage) :
  let storage := if remember_me ls then ls else ss in
  auth (mount ls ss)
  = match
      (let* token := parse_if_present JSON_parse (storage !! "admin_token") in
       let* user := parse_if_present JSON_parse (storage !! "admin_user") in
       JS.Normal (token, user))
    with
    | JS.Normal (token, user) =>
        if JS.truthy token && JS.truthy user
        then authReducer initialState (LOGIN_SUCCESS user token)
        else logged_out
    | JS.Throw _ => logged_out
    end.
Proof.
  unfold AuthContext.mount, initializeAuth, initializeAuth_try, selected; cbn.
  destruct (remember_me ls); cbn.
  - destruct (parse_if_present JSON_parse (ls !! "admin_token")) as [t|]; cbn;
      [| reflexivity].
    destruct (parse_if_present JSON_parse (ls !! "admin_user")) as [u|]; cbn;
      [| reflexivity].
    destruct (JS.truthy t && JS.truthy u); reflexivity.
  - destruct (parse_if_present JSON_parse (ss !! "admin_token")) as [t|]; cbn;
      [| reflexivity].
    destruct (parse_if_present JSON_parse (ss !! "admin_user")) as [u|]; cbn;
      [| reflexivity].
    destruct (JS.truthy t && JS.truthy u); reflexivity.
Qed.

(** The initializer leaves both storage areas as they were. *)
Lemma mount_storage (ls ss : Storage) :
  localStorage (mount ls ss) = ls /\ sessionStorage (mount ls ss) = ss.
Proof.
  unfold AuthContext.mount, initializeAuth, initializeAuth_try.
  destruct (parse_if_present JSON_parse _) as [t|]; cbn; [| auto].
  destruct (parse_if_present JSON_parse _) as [u|]; cbn; [| auto].
  destruct (JS.truthy t && JS.truthy u); cbn; auto.
Qed.

(** On a non-empty malformed credential entry the [try] block is left by
    the SyntaxError of [JSON.parse]; [initializeAuth] catches it. *)
Lemma initializeAuth_try_malformed_token (w : World) (raw : string) :
  selected (remember_me (localStorage w)) w !! "admin_token" = Some raw ->
  raw <> "" ->
  JSON_parse raw = None ->
  initializeAuth_try JSON_parse w = JS.Throw JS.SyntaxError
  /\ initializeAuth JSON_parse w = dispatch w (SET_LOADING false).
Proof.
  intros Hraw Hne Hbad.
  assert (initializeAuth_try JSON_parse w = JS.Throw JS.SyntaxError) as Htry.
  { unfold initializeAuth_try. rewrite Hraw.
    unfold parse_if_present, truthy_raw, parse.
    destruct (String.eqb_spec raw "") as [Heq | _]; [contradiction |].
    cbn. rewrite Hbad. reflexivity. }
  split; [exact Htry |].
  unfold initializeAuth. rewrite Htry. reflexivity.
Qed.

(** C4.  When the credential entry of the store the initializer reads is
    malformed JSON, the initializer completes (the SyntaxError is caught) and
    the session is logged out and not loading; the storage areas are
    untouched. *)
Theorem mount_malformed_token (ls ss : Storage) (raw : string) :
  (if remember_me ls then ls else ss) !! "admin_token" = Some raw ->
  JSON_parse raw = None ->
  mount ls ss
  = {| auth := {| user := None; token := None; isAuthenticated := false;
                  loading := false; error := None |};
       localStorage := ls; sessionStorage := ss |}.
Proof.
  intros Hraw Hbad.
  pose proof (mount_auth_selected ls ss) as Hauth.
  destruct (mount_storage ls ss) as [Hls Hss].
  cbn zeta in Hauth. rewrite Hraw in Hauth.
  assert (auth (mount ls ss) = logged_out) as Hout.
  { rewrite Hauth. clear Hauth.
    destruct (parse_if_present_malformed raw Hbad) as [-> | ->]; cbn;
      [| reflexivity].
    destruct (parse_if_present JSON_parse _); reflexivity. }
  clear Hauth.
  destruct (mount ls ss) as [a l s]; cbn in Hls, Hss, Hout.
  rewrite Hls, Hss, Hout. reflexivity.
Qed.


(** C10.  [clearError] dispatches LOGIN_FAILURE with the empty message: the
    identity and the credential are cleared, the session is neither
    authenticated nor loading, the error is the empty string, and neither
    storage area is touched. *)
Theorem clearError_logs_out (w : World) :
  clearError w = dispatch w (LOGIN_FAILURE "")
  /\ auth (clearError w)
     = {| user := None; token := None; isAuthenticated := false;
          loading := false; error := Some "" |}
  /\ localStorage (clearError w) = localStorage w
  /\ sessionStorage (clearError w) = sessionStorage w.
Proof.
  repeat split.
Qed.

End ProviderFacts.

(** A remembered session with a malformed credential entry. *)
Lemma mount_malformed_token_witness :
  AuthContext.mount Sample.JSON_parse
    (<["admin_token" := "{oops"]> (<["admin_remember_me" := "true"]> ∅)) ∅
  = {| AuthContext.auth := AuthContext.logged_out;
       AuthContext.localStorage :=
         <["admin_token" := "{oops"]> (<["admin_remember_me" := "true"]> ∅);
       AuthContext.sessionStorage := ∅ |}.
Proof.
  apply (mount_malformed_token Sample.JSON_parse _ _ "{oops");
    vm_compute; reflexivity.
Defined.


(** The sample platform on small inputs. *)
Example sample_parse_string :
  Sample.JSON_parse (Sample.quoted "abc") = Some (JS.Str "abc").
Proof. reflexivity. Qed.

Example sample_parse_malformed : Sample.JSON_parse "{oops" = None.
Proof. reflexivity. Qed.

(** A tab-scoped session is restored from [sessionStorage]. *)
Example mount_tab_session :
  AuthContext.auth
    (AuthContext.mount Sample.JSON_parse ∅
       (AuthContext.sessionStorage Sample.tab_session))
  = AuthContext.auth Sample.tab_session.
Proof. vm_compute. reflexivity. Qed.

(** The guard [token && user] is on the parsed values: an entry that parses
    to the empty string counts as absent. *)
Example mount_empty_token :
  AuthContext.auth
    (AuthContext.mount Sample.JSON_parse
       (<["admin_user" := "{}"]>
          (<["admin_token" := Sample.quoted ""]>
             (<["admin_remember_me" := "true"]> ∅)))
       ∅)
  = AuthContext.logged_out.
Proof. vm_compute. reflexivity. Qed.

(** Without the flag, [login] writes the pair to [sessionStorage] and
    removes it from [localStorage]. *)
Example login_tab_scoped :
  let w := fst (AuthContext.login Sample.JSON_stringify Sample.ToString
                  Sample.engine_message
                  (fun w => (w, AuthContext.Resolved
                     (JS.Obj [("ok", JS.Bool true);
                              ("data", JS.Obj [("user", Sample.admin);
                                               ("token", JS.Str "old")])])))
                  {| AuthContext.auth := AuthContext.logged_out;
                     AuthContext.localStorage :=
                       <["admin_token" := Sample.quoted "stale"]> ∅;
                     AuthContext.sessionStorage := ∅ |}) in
  AuthContext.auth w = AuthContext.auth Sample.tab_session
  /\ AuthContext.sessionStorage w !! "admin_token" = Some (Sample.quoted "old")
  /\ AuthContext.localStorage w !! "admin_token" = None.
Proof. vm_compute. repeat split. Qed.

(** ** The auth manager hook *)

Section HookFacts.

Import AuthContext UseAuthManager.

Variable JSON_stringify : JS.Value -> option string.
Variable setToStorage : string -> JS.Value -> World -> World.
Variable ToString : JS.Value -> string.
Variable engine_message : JS.Exception -> string.

Local Abbreviation refreshToken := (UseAuthManager.refreshToken JSON_stringify).
Local Abbreviation handleTokenExpiration :=
  (UseAuthManager.handleTokenExpiration JSON_stringify).
Local Abbreviation refreshInterval :=
  (UseAuthManager.refreshInterval JSON_stringify).
Local Abbreviation validateSession :=
  (UseAuthManager.validateSession JSON_stringify setToStorage).
Local Abbreviation handleVisibilityChange :=
  (UseAuthManager.handleVisibilityChange JSON_stringify setToStorage).

(** The API client whose [auth:logout] event reaches the hook's listener. *)
Local Abbreviation client :=
  (Api.authService ToString engine_message handleLogoutEvent).

Lemma logout_not_authenticated (w : World) :
  isAuthenticated (auth (logout w)) = false.
Proof. reflexivity. Qed.

Lemma logout_storage (w : World) :
  localStorage (logout w) !! "admin_token" = None
  /\ localStorage (logout w) !! "admin_user" = None
  /\ sessionStorage (logout w) !! "admin_token" = None
  /\ sessionStorage (logout w) !! "admin_user" = None.
Proof.
  unfold logout; cbn.
  repeat split; by simplify_map_eq.
Qed.

Lemma get_truthy (v : JS.Value) (k : string) :
  JS.truthy v = true -> JS.get v k <> None.
Proof.
  destruct v; cbn; congruence.
Qed.

(** What [response.ok && response.data] evaluates to on a failed attempt. *)
Lemma ok_and_data_failure (response : JS.Value) :
  refresh_succeeded (Resolved response) = false ->
  (exists e, ok_and_data response = JS.Throw e)
  \/ (exists v, ok_and_data response = JS.Normal v /\ JS.truthy v = false).
Proof.
  unfold refresh_succeeded, ok_and_data, read.
  destruct (JS.get response "ok") as [ok|] eqn:Hok; cbn; [| eauto].
  destruct (JS.truthy ok) eqn:Htok; cbn; [| eauto].
  destruct (JS.get response "data") as [data|]; cbn; eauto.
Qed.

Lemma refreshToken_try_failure (o : ServiceOutcome) (w : World) :
  refresh_succeeded o = false ->
  match refreshToken_try JSON_stringify o w with
  | JS.Normal r => r
  | JS.Throw _ => (w, false)
  end = (w, false).
Proof.
  intros Hfail. destruct o as [response | e]; cbn; [| reflexivity].
  destruct (ok_and_data_failure response Hfail) as [[e ->] | [v [-> Hv]]]; cbn.
  - reflexivity.
  - rewrite Hv. reflexivity.
Qed.

(** C6.  When the refresh attempt does not succeed (non-success response,
    missing data or a thrown error), [handleTokenExpiration] calls [logout]
    on the world the single service call left, reports false, and the session
    is not authenticated; so does a firing of the refresh interval. *)
Theorem failed_refresh_logs_out (auth_token : option JS.Value)
    (authService_refreshToken : ServiceCall) (w : World) :
  refresh_succeeded (snd (authService_refreshToken w)) = false ->
  let settled := if JS.truthy (JS.of_nullable auth_token)
                 then fst (authService_refreshToken w)
                 else w in
  handleTokenExpiration auth_token authService_refreshToken w
  = (logout settled, false)
  /\ isAuthenticated
       (auth (fst (handleTokenExpiration auth_token authService_refreshToken w)))
     = false
  /\ (isAuthenticated (auth w) = true ->
      JS.truthy (JS.of_nullable (token (auth w))) = true ->
      refreshInterval authService_refreshToken w
      = logout (fst (authService_refreshToken w))).
Proof.
  intros Hfail settled.
  assert (forall t, handleTokenExpiration t authService_refreshToken w
                    = (logout (if JS.truthy (JS.of_nullable t)
                               then fst (authService_refreshToken w)
                               else w), false)) as Hexp.
  { intros t.
    unfold UseAuthManager.handleTokenExpiration, UseAuthManager.refreshToken.
    destruct (JS.truthy (JS.of_nullable t)); cbn; [| reflexivity].
    destruct (authService_refreshToken w) as [w1 o]; cbn in *.
    rewrite (refreshToken_try_failure o w1 Hfail). reflexivity. }
  split; [apply Hexp |].
  split; [rewrite Hexp; reflexivity |].
  intros Hauth Htok. unfold UseAuthManager.refreshInterval.
  rewrite Hauth, Hexp, Htok. reflexivity.
Qed.

(** A successful refresh writes the renewed token to [localStorage],
    whatever the "remember me" flag says; the reducer state and
    [sessionStorage] are as the service call left them. *)
Lemma refreshToken_success (auth_token : option JS.Value)
    (authService_refreshToken : ServiceCall) (w w1 : World)
    (response data : JS.Value) :
  JS.truthy (JS.of_nullable auth_token) = true ->
  authService_refreshToken w = (w1, Resolved response) ->
  ok_and_data response = JS.Normal data ->
  JS.truthy data = true ->
  exists renewed,
    JS.get data "token" = Some renewed
    /\ refreshToken auth_token authService_refreshToken w
       = (set_localStorage w1
            (<["admin_token" := stringify_item JSON_stringify renewed]>
               (localStorage w1)),
          true).
Proof.
  intros Htok Hcall Hdata Htruthy.
  destruct (JS.get data "token") as [renewed|] eqn:Hget;
    [| exfalso; exact (get_truthy data "token" Htruthy Hget)].
  exists renewed. split; [reflexivity |].
  unfold UseAuthManager.refreshToken. rewrite Htok, Hcall; cbn.
  rewrite Hdata; cbn. rewrite Htruthy. unfold read. rewrite Hget.
  reflexivity.
Qed.

(** In a remembered session the store written by a successful refresh is
    the selected one. *)
Lemma refreshToken_success_remembered (auth_token : option JS.Value)
    (authService_refreshToken : ServiceCall) (w w1 : World)
    (response data : JS.Value) :
  JS.truthy (JS.of_nullable auth_token) = true ->
  authService_refreshToken w = (w1, Resolved response) ->
  ok_and_data response = JS.Normal data ->
  JS.truthy data = true ->
  remember_me (localStorage w1) = true ->
  let w' := fst (refreshToken auth_token authService_refreshToken w) in
  exists renewed,
    JS.get data "token" = Some renewed
    /\ selected (remember_me (localStorage w')) w' !! "admin_token"
       = Some (stringify_item JSON_stringify renewed)
    /\ auth w' = auth w1.
Proof.
  intros Htok Hcall Hdata Htruthy Hflag w'.
  destruct (refreshToken_success auth_token authService_refreshToken w w1
              response data Htok Hcall Hdata Htruthy) as [renewed [Hget Heq]].
  exists renewed. split; [exact Hget |].
  subst w'. rewrite Heq. cbn.
  assert (remember_me
            (<["admin_token" := stringify_item JSON_stringify renewed]>
               (localStorage w1)) = true) as ->.
  { unfold remember_me in *. apply bool_decide_eq_true.
    apply bool_decide_eq_true in Hflag. by simplify_map_eq. }
  cbn. split; [by simplify_map_eq | reflexivity].
Qed.

(** The storage writes of [login] follow the flag: the selected store gets
    the pair and the other store loses it. *)
Lemma store_session_scope (user token : JS.Value) (w : World) :
  let w' := store_session JSON_stringify user token w in
  selected (remember_me (localStorage w)) w' !! "admin_token"
  = Some (stringify_item JSON_stringify token)
  /\ selected (negb (remember_me (localStorage w))) w' !! "admin_token" = None.
Proof.
  unfold store_session, selected.
  destruct (remember_me (localStorage w)); cbn; split; by simplify_map_eq.
Qed.

Lemma client_not_unauthorized (r : Api.AxiosResult) (w : World) :
  Api.is_unauthorized r = false -> fst (client r w) = w.
Proof.
  unfold Api.authService, Api.apiRequest.
  destruct r as [responseData | response msg]; cbn.
  - intros _. destruct (read responseData "ok") as [ok|]; [| reflexivity].
    destruct (negb (Api.is_undefined ok)); reflexivity.
  - intros Hne. unfold Api.responseError. rewrite Hne.
    destruct response as [[status body]|]; [| reflexivity].
    destruct (Api.apiError_text body); reflexivity.
Qed.

Lemma client_unauthorized (status_body : JS.Value) (msg : string) (w : World) :
  exists e,
    client (Api.Rejected (Some (401%Z, status_body)) msg) w
    = (logout (Api.clearAuthData w),
       Resolved (Api.failure engine_message e)).
Proof.
  unfold Api.authService, Api.apiRequest, Api.responseError; cbn.
  destruct (Api.apiError_text status_body); eexists; reflexivity.
Qed.

Lemma ok_and_data_failure_response (e : JS.Exception) :
  ok_and_data (Api.failure engine_message e) = JS.Normal (JS.Bool false).
Proof. reflexivity. Qed.

(** A validation that reports false leaves the world as the service call
    left it. *)
Lemma validateSession_failed (auth_token auth_user : option JS.Value)
    (authService_me : ServiceCall) (w : World) :
  snd (validateSession auth_token auth_user authService_me w) = false ->
  fst (validateSession auth_token auth_user authService_me w)
  = if JS.truthy (JS.of_nullable auth_token)
    then fst (authService_me w)
    else w.
Proof.
  unfold UseAuthManager.validateSession.
  destruct (JS.truthy (JS.of_nullable auth_token)); cbn; [| reflexivity].
  destruct (authService_me w) as [w1 o]; cbn.
  destruct o as [response | e]; cbn; [| reflexivity].
  destruct (ok_and_data response) as [data|]; cbn; [| reflexivity].
  destruct (JS.truthy data); cbn; [| reflexivity].
  case_bool_decide; cbn; discriminate.
Qed.

(** C8 (amended).  [validateSession] never logs out by itself: when it
    reports false the world is the one the service call left.  With the API
    client, a failed visibility-triggered validation leaves the whole world
    unchanged unless the request was answered with status 401; on a 401 the
    response interceptor purges both stores and raises [auth:logout], and
    the session is logged out. *)
Theorem failed_validation_logs_out_only_on_401 :
  (forall (auth_token auth_user : option JS.Value) (authService_me : ServiceCall)
          (w : World),
      snd (validateSession auth_token auth_user authService_me w) = false ->
      fst (validateSession auth_token auth_user authService_me w)
      = if JS.truthy (JS.of_nullable auth_token)
        then fst (authService_me w)
        else w)
  /\ (forall (visibilityState : string) (r : Api.AxiosResult) (w : World),
      Api.is_unauthorized r = false ->
      snd (validateSession (token (auth w)) (user (auth w)) (client r) w)
      = false ->
      handleVisibilityChange visibilityState (client r) w = w)
  /\ (forall (body : JS.Value) (msg : string) (w : World),
      isAuthenticated (auth w) = true ->
      JS.truthy (JS.of_nullable (token (auth w))) = true ->
      let r := Api.Rejected (Some (401%Z, body)) msg in
      snd (validateSession (token (auth w)) (user (auth w)) (client r) w)
      = false
      /\ handleVisibilityChange "visible" (client r) w
         = logout (Api.clearAuthData w)
      /\ isAuthenticated
           (auth (handleVisibilityChange "visible" (client r) w))
         = false).
Proof.
  split; [exact validateSession_failed |].
  split.
  - intros vs r w Hne Hfailed.
    unfold UseAuthManager.handleVisibilityChange.
    destruct (bool_decide (vs = "visible") && isAuthenticated (auth w));
      [| reflexivity].
    rewrite (validateSession_failed _ _ _ _ Hfailed).
    rewrite (client_not_unauthorized r w Hne).
    destruct (JS.truthy _); reflexivity.
  - intros body msg w Hauth Htok r.
    assert (validateSession (token (auth w)) (user (auth w)) (client r) w
            = (logout (Api.clearAuthData w), false)) as Hv.
    { unfold UseAuthManager.validateSession. rewrite Htok; cbn -[Api.authService].
      destruct (client_unauthorized body msg w) as [e He].
      subst r. rewrite He. cbn. reflexivity. }
    unfold UseAuthManager.handleVisibilityChange.
    rewrite Hauth, Hv. cbn. auto.
Qed.

(** C9.  A storage event that reports the removal of [admin_token], seen
    while authenticated, makes the listener call [logout]: the session is
    not authenticated when the handler returns. *)
Theorem storage_removal_logs_out (e : StorageEvent) (w : World) :
  key e = Some "admin_token" ->
  newValue e = None ->
  isAuthenticated (auth w) = true ->
  handleStorageChange e w = logout w
  /\ isAuthenticated (auth (handleStorageChange e w)) = false.
Proof.
  intros Hkey Hnew _. unfold handleStorageChange.
  rewrite Hkey, Hnew.
  rewrite !bool_decide_eq_true_2 by reflexivity. cbn. auto.
Qed.

End HookFacts.

(** A refresh answered with status 500, in a tab-scoped session. *)
Lemma failed_refresh_logs_out_witness :
  AuthContext.isAuthenticated
    (AuthContext.auth
       (fst (UseAuthManager.handleTokenExpiration Sample.JSON_stringify
               (Some (JS.Str "old")) (Sample.client Sample.server_error)
               Sample.tab_session)))
  = false.
Proof.
  apply (proj1 (proj2 (failed_refresh_logs_out Sample.JSON_stringify
                         (Some (JS.Str "old"))
                         (Sample.client Sample.server_error)
                         Sample.tab_session eq_refl))).
Defined.

(** C7, at a tab-scoped session (no "remember me" flag, the token in
    [sessionStorage]): a successful refresh puts the renewed token into
    [localStorage] and leaves the old one in [sessionStorage], the store the
    session was written to and the initializer will read; the reducer state
    is unchanged. *)
Theorem refresh_writes_localStorage_in_tab_session :
  let w := Sample.tab_session in
  let w' := UseAuthManager.refreshInterval Sample.JSON_stringify
              (Sample.client Sample.refreshed) w in
  AuthContext.remember_me (AuthContext.localStorage w) = false
  /\ AuthContext.sessionStorage w' !! "admin_token"
     = Some (Sample.quoted "old")
  /\ AuthContext.localStorage w' !! "admin_token"
     = Some (Sample.quoted "new")
  /\ AuthContext.auth w' = AuthContext.auth w
  /\ AuthContext.token
       (AuthContext.auth (AuthContext.mount Sample.JSON_parse
          (AuthContext.localStorage w') (AuthContext.sessionStorage w')))
     = Some (JS.Str "old").
Proof.
  vm_compute. repeat split.
Qed.

(** A validation answered with status 500 leaves the session as it was. *)
Lemma failed_validation_logs_out_only_on_401_witness :
  UseAuthManager.handleVisibilityChange Sample.JSON_stringify
    Sample.setToStorage "visible" (Sample.client Sample.server_error)
    Sample.tab_session
  = Sample.tab_session.
Proof.
  apply (proj1 (proj2 (failed_validation_logs_out_only_on_401
                         Sample.JSON_stringify Sample.setToStorage
                         Sample.ToString Sample.engine_message))
           "visible" Sample.server_error Sample.tab_session);
    reflexivity.
Defined.

(** C8, as stated, fails: a visibility-triggered validation answered with
    status 401 fails and the session, authenticated before, is logged out. *)
Lemma unauthorized_validation_logs_out :
  let w := Sample.tab_session in
  let call := Sample.client Sample.unauthorized in
  AuthContext.isAuthenticated (AuthContext.auth w) = true
  /\ snd (UseAuthManager.validateSession Sample.JSON_stringify
            Sample.setToStorage (AuthContext.token (AuthContext.auth w))
            (AuthContext.user (AuthContext.auth w)) call w)
     = false
  /\ AuthContext.isAuthenticated
       (AuthContext.auth
          (UseAuthManager.handleVisibilityChange Sample.JSON_stringify
             Sample.setToStorage "visible" call w))
     = false.
Proof.
  vm_compute. repeat split.
Qed.

(** Another tab removed the token while this one was authenticated. *)
Lemma storage_removal_logs_out_witness :
  AuthContext.isAuthenticated
    (AuthContext.auth
       (UseAuthManager.handleStorageChange
          {| UseAuthManager.key := Some "admin_token";
             UseAuthManager.newValue := None |}
          Sample.tab_session))
  = false.
Proof.
  apply (proj2 (storage_removal_logs_out
                  {| UseAuthManager.key := Some "admin_token";
                     UseAuthManager.newValue := None |}
                  Sample.tab_session eq_refl eq_refl eq_refl)).
Defined.

(** * Further properties *)

(** ** Where the fields of a reducer state come from *)

Section ReducerHistory.

Context {AdminUser Token : Type}.

Import AuthContext.

Local Abbreviation State := (AuthState AdminUser Token).
Local Abbreviation Action := (AuthAction AdminUser Token).

Lemma token_from (actions : list Action) : forall (s : State) (t : Token),
  token (run s actions) = Some t ->
  token s = Some t \/ exists u, In (LOGIN_SUCCESS u t) actions.
Proof.
  induction actions as [|a actions IH]; intros s t Ht; cbn in *.
  - left. exact Ht.
  - destruct (IH _ _ Ht) as [Hhere | [u Hin]].
    + destruct a; cbn in Hhere; try discriminate; auto.
      injection Hhere as ->. right. eexists. left. reflexivity.
    + right. exists u. right. exact Hin.
Qed.

Lemma user_from (actions : list Action) : forall (s : State) (u : AdminUser),
  user (run s actions) = Some u ->
  user s = Some u
  \/ (exists t, In (LOGIN_SUCCESS u t) actions)
  \/ In (SET_USER u) actions.
Proof.
  induction actions as [|a actions IH]; intros s u Hu; cbn in *.
  - left. exact Hu.
  - destruct (IH _ _ Hu) as [Hhere | [[t Hin] | Hin]].
    + destruct a; cbn in Hhere; try discriminate; auto.
      * injection Hhere as ->. right. left. eexists. left. reflexivity.
      * injection Hhere as ->. right. right. left. reflexivity.
    + right. left. exists t. right. exact Hin.
    + right. right. right. exact Hin.
Qed.

Lemma error_from (actions : list Action) : forall (s : State) (m : string),
  error (run s actions) = Some m ->
  error s = Some m \/ In (LOGIN_FAILURE m) actions.
Proof.
  induction actions as [|a actions IH]; intros s m Hm; cbn in *.
  - left. exact Hm.
  - destruct (IH _ _ Hm) as [Hhere | Hin].
    + destruct a; cbn in Hhere; try discriminate; auto.
      injection Hhere as ->. right. left. reflexivity.
    + right. right. exact Hin.
Qed.

(** Where a held token was assigned: by a LOGIN_SUCCESS after which the
    run only has actions that keep the token. *)
Lemma token_origin (actions : list Action) : forall (s : State) (t : Token),
  token (run s actions) = Some t ->
  (token s = Some t /\ forallb keeps_token actions = true)
  \/ exists u pre post,
       actions = pre ++ LOGIN_SUCCESS u t :: post
       /\ forallb keeps_token post = true.
Proof.
  induction actions as [|a actions IH]; intros s t Ht; cbn in *.
  - left. auto.
  - destruct (IH _ _ Ht) as [[Hhere Hkeep] | (u & pre & post & -> & Hkeep)].
    + destruct a; cbn in Hhere |- *; try discriminate; auto.
      injection Hhere as ->. right.
      exists payload_user, [], actions. auto.
    + right. exists u, (a :: pre), post. auto.
Qed.

(** Where a held user was assigned: by a LOGIN_SUCCESS or a SET_USER after
    which the run only has actions that keep the user. *)
Lemma user_origin (actions : list Action) : forall (s : State) (u : AdminUser),
  user (run s actions) = Some u ->
  (user s = Some u /\ forallb keeps_user actions = true)
  \/ exists a pre post,
       actions = pre ++ a :: post
       /\ (a = SET_USER u \/ exists t, a = LOGIN_SUCCESS u t)
       /\ forallb keeps_user post = true.
Proof.
  induction actions as [|a actions IH]; intros s u Hu; cbn in *.
  - left. auto.
  - destruct (IH _ _ Hu) as [[Hhere Hkeep] | (b & pre & post & -> & Hb & Hkeep)].
    + destruct a; cbn in Hhere |- *; try discriminate; auto.
      * injection Hhere as ->. right.
        exists (LOGIN_SUCCESS u payload_token), [], actions. eauto.
      * injection Hhere as ->. right.
        exists (SET_USER u), [], actions. eauto.
    + right. exists b, (a :: pre), post. auto.
Qed.

(** After a run from the initial state, a token held was the payload of a
    LOGIN_SUCCESS of the run that no LOGIN_SUCCESS, LOGIN_FAILURE or LOGOUT
    follows; a user held, with or without a token, was the payload of a
    LOGIN_SUCCESS or of a SET_USER of the run that no LOGIN_SUCCESS,
    SET_USER, LOGIN_FAILURE or LOGOUT follows. *)
Theorem credential_provenance (actions : list Action) :
  let s := run initialState actions in
  (forall t, token s = Some t ->
     exists u pre post,
       actions = pre ++ LOGIN_SUCCESS u t :: post
       /\ forallb keeps_token post = true)
  /\ (forall u, user s = Some u ->
     exists a pre post,
       actions = pre ++ a :: post
       /\ (a = SET_USER u \/ exists t, a = LOGIN_SUCCESS u t)
       /\ forallb keeps_user post = true)
  /\ (forall t, token s = Some t -> exists u, In (LOGIN_SUCCESS u t) actions)
  /\ (forall u, user s = Some u ->
     (exists t, In (LOGIN_SUCCESS u t) actions) \/ In (SET_USER u) actions).
Proof.
  intros s. repeat split.
  - intros t Ht.
    destruct (token_origin _ _ _ Ht) as [[H _] | H]; [discriminate | exact H].
  - intros u Hu.
    destruct (user_origin _ _ _ Hu) as [[H _] | H]; [discriminate | exact H].
  - intros t Ht.
    destruct (token_from _ _ _ Ht) as [H | H]; [discriminate | exact H].
  - intros u Hu.
    destruct (user_from _ _ _ Hu) as [H | H]; [discriminate | exact H].
Qed.

(** An error message held after a run from the initial state is the payload
    of a LOGIN_FAILURE of the run. *)
Theorem error_provenance (actions : list Action) (m : string) :
  error (run initialState actions) = Some m ->
  In (LOGIN_FAILURE m) actions.
Proof.
  intros Hm.
  destruct (error_from _ _ _ Hm) as [H | H]; [discriminate | exact H].
Qed.

End ReducerHistory.

(** A user held without a token, after SET_USER alone. *)
Lemma credential_provenance_witness :
  exists a pre post,
    [AuthContext.SET_USER (Token := JS.Value) Sample.admin]
    = pre ++ a :: post
    /\ (a = AuthContext.SET_USER Sample.admin
        \/ exists t, a = AuthContext.LOGIN_SUCCESS Sample.admin t)
    /\ forallb AuthContext.keeps_user post = true.
Proof.
  apply (proj1 (proj2
           (credential_provenance
              [AuthContext.SET_USER (Token := JS.Value) Sample.admin]))).
  reflexivity.
Defined.

Lemma error_provenance_witness :
  In (AuthContext.LOGIN_FAILURE "Login failed")
     [AuthContext.LOGIN_START (AdminUser := JS.Value) (Token := JS.Value);
      AuthContext.LOGIN_FAILURE "Login failed";
      AuthContext.SET_LOADING false].
Proof.
  apply (error_provenance
           [AuthContext.LOGIN_START; AuthContext.LOGIN_FAILURE "Login failed";
            AuthContext.SET_LOADING false]).
  reflexivity.
Defined.

(** ** The route guard *)

Section GuardFacts.

Import AuthContext ProtectedRoute.

Variable JSON_parse : string -> option JS.Value.

Local Abbreviation mount := (AuthContext.mount JSON_parse).

Lemma truthy_of_nullable (o : option JS.Value) :
  JS.truthy (JS.of_nullable o) = true -> is_Some o.
Proof.
  destruct o; cbn; [eauto | discriminate].
Qed.

(** On every state the reducer can reach from the initial one, the guard
    renders its children exactly when the session is not loading and both
    token and user are truthy: there the test of [isAuthenticated] never
    decides. *)
Theorem guard_on_reachable_state
    (actions : list (AuthAction JS.Value JS.Value)) :
  let s := run initialState actions in
  ProtectedRoute s = Children
  <-> (loading s = false
       /\ JS.truthy (JS.of_nullable (token s)) = true
       /\ JS.truthy (JS.of_nullable (user s)) = true).
Proof.
  intros s.
  destruct (follows_user_run actions initialState follows_user_initial)
    as [_ Htok].
  fold s in Htok. unfold ProtectedRoute.
  destruct (loading s); [split; [discriminate | intros [H _]; discriminate] |].
  destruct (JS.truthy (JS.of_nullable (token s))) eqn:Ht.
  - rewrite (Htok (truthy_of_nullable _ Ht)); cbn.
    destruct (JS.truthy (JS.of_nullable (user s))); cbn.
    + split; auto.
    + split; [discriminate | intros (_ & _ & H); discriminate].
  - rewrite orb_true_r; cbn.
    split; [discriminate | intros (_ & H & _); discriminate].
Qed.

(** What the initializer leaves is either the logged-out state or the state
    of a LOGIN_SUCCESS with a truthy token and a truthy user. *)
Lemma mount_auth_cases (ls ss : Storage) :
  auth (mount ls ss) = logged_out
  \/ exists usr tok,
       JS.truthy tok = true /\ JS.truthy usr = true
       /\ auth (mount ls ss)
          = {| user := Some usr; token := Some tok; isAuthenticated := true;
               loading := false; error := None |}.
Proof.
  rewrite mount_auth_selected. cbn zeta.
  destruct (parse_if_present JSON_parse _) as [t|]; cbn; [| auto].
  destruct (parse_if_present JSON_parse _) as [u|]; cbn; [| auto].
  destruct (JS.truthy t) eqn:Ht, (JS.truthy u) eqn:Hu; cbn; auto.
  right. exists u, t. auto.
Qed.

(** Once the initializer has run the guard never shows the page loader, and
    it renders its children exactly when the initializer authenticated the
    session. *)
Theorem guard_after_mount (ls ss : Storage) :
  let s := auth (mount ls ss) in
  loading s = false
  /\ ProtectedRoute s <> PageLoader
  /\ (ProtectedRoute s = Children <-> isAuthenticated s = true).
Proof.
  cbn zeta.
  destruct (mount_auth_cases ls ss) as [-> | (usr & tok & Ht & Hu & ->)].
  - cbn. repeat split; try discriminate.
  - unfold ProtectedRoute; cbn. rewrite Ht, Hu; cbn.
    repeat split; discriminate.
Qed.

Lemma mount_without_pair (ls ss : Storage) :
  (if remember_me ls then ls else ss) !! "admin_token" = None ->
  auth (mount ls ss) = logged_out.
Proof.
  intros Hnone. rewrite mount_auth_selected. cbn zeta. rewrite Hnone; cbn.
  destruct (parse_if_present JSON_parse _); reflexivity.
Qed.

(** After [logout], and after the purge done by the API client on a 401, a
    restart of the provider finds no session, whatever the "remember me"
    flag says; the guard then renders the login form. *)
Theorem restart_after_logout (w : World) :
  let w1 := logout w in
  let w2 := Api.clearAuthData w in
  auth (mount (localStorage w1) (sessionStorage w1)) = logged_out
  /\ auth (mount (localStorage w2) (sessionStorage w2)) = logged_out
  /\ ProtectedRoute (auth w1) = Fallback
  /\ ProtectedRoute (auth (mount (localStorage w1) (sessionStorage w1)))
     = Fallback.
Proof.
  cbn zeta.
  assert (auth (mount (localStorage (logout w)) (sessionStorage (logout w)))
          = logged_out) as H1.
  { apply mount_without_pair. unfold logout; cbn.
    destruct (remember_me _); by simplify_map_eq. }
  split; [exact H1 |]. split.
  - apply mount_without_pair. unfold Api.clearAuthData; cbn.
    destruct (remember_me _); by simplify_map_eq.
  - rewrite H1. split; reflexivity.
Qed.

End GuardFacts.

(** ** Login, logout and restart *)

Section SessionFacts.

Import AuthContext UseAuthManager.

Variable JSON_parse : string -> option JS.Value.
Variable JSON_stringify : JS.Value -> option string.
Variable ToString : JS.Value -> string.
Variable engine_message : JS.Exception -> string.

Local Abbreviation mount := (AuthContext.mount JSON_parse).
Local Abbreviation login :=
  (AuthContext.login JSON_stringify ToString engine_message).
Local Abbreviation store_session := (AuthContext.store_session JSON_stringify).
Local Abbreviation stringify_item := (AuthContext.stringify_item JSON_stringify).
Local Abbreviation useLogin_login :=
  (UseAuthManager.useLogin_login JSON_stringify ToString engine_message).

Lemma remember_me_insert (k v : string) (ls : Storage) :
  k <> "admin_remember_me" -> remember_me (<[k := v]> ls) = remember_me ls.
Proof.
  intros Hk. unfold remember_me. by rewrite lookup_insert_ne.
Qed.

Lemma remember_me_delete (k : string) (ls : Storage) :
  k <> "admin_remember_me" -> remember_me (delete k ls) = remember_me ls.
Proof.
  intros Hk. unfold remember_me. by rewrite lookup_delete_ne.
Qed.

(** [login] on a response that carries [{ user, token }]. *)
Lemma login_success_eq (authService_login : ServiceCall) (w w1 : World)
    (response data usr tok : JS.Value) :
  authService_login (dispatch w LOGIN_START) = (w1, Resolved response) ->
  ok_and_data response = JS.Normal data ->
  JS.truthy data = true ->
  JS.get data "user" = Some usr ->
  JS.get data "token" = Some tok ->
  login authService_login w
  = (dispatch (store_session usr tok w1) (LOGIN_SUCCESS usr tok), None).
Proof.
  intros Hcall Hdata Htruthy Hu Ht.
  unfold AuthContext.login. rewrite Hcall. cbn.
  rewrite Hdata. cbn. rewrite Htruthy. unfold read. rewrite Hu, Ht.
  reflexivity.
Qed.

(** The store the initializer will select after [store_session] holds the
    pair just written. *)
Lemma store_session_selected (usr tok : JS.Value) (w : World) :
  let w' := store_session usr tok w in
  remember_me (localStorage w') = remember_me (localStorage w)
  /\ (if remember_me (localStorage w') then localStorage w'
      else sessionStorage w') !! "admin_token" = Some (stringify_item tok)
  /\ (if remember_me (localStorage w') then localStorage w'
      else sessionStorage w') !! "admin_user" = Some (stringify_item usr).
Proof.
  unfold AuthContext.store_session.
  destruct (remember_me (localStorage w)) eqn:Hflag; cbn.
  - rewrite !remember_me_insert by discriminate. rewrite Hflag.
    repeat split; by simplify_map_eq.
  - rewrite !remember_me_delete by discriminate. rewrite Hflag.
    repeat split; by simplify_map_eq.
Qed.

(** A session written by a successful [login] is the one the initializer
    restores on the next start, whichever store the flag selects, when the
    stored texts parse back to the truthy user and token. *)
Theorem login_then_restart (authService_login : ServiceCall) (w w1 : World)
    (response data usr tok : JS.Value) :
  JSON_parse "" = None ->
  authService_login (dispatch w LOGIN_START) = (w1, Resolved response) ->
  ok_and_data response = JS.Normal data ->
  JS.truthy data = true ->
  JS.get data "user" = Some usr ->
  JS.get data "token" = Some tok ->
  JS.truthy usr = true ->
  JS.truthy tok = true ->
  JSON_parse (stringify_item usr) = Some usr ->
  JSON_parse (stringify_item tok) = Some tok ->
  let w' := fst (login authService_login w) in
  snd (login authService_login w) = None
  /\ auth w' = {| user := Some usr; token := Some tok; isAuthenticated := true;
                  loading := false; error := None |}
  /\ auth (mount (localStorage w') (sessionStorage w')) = auth w'.
Proof.
  intros Hempty Hcall Hdata Htruthy Hu Ht Htu Htt Hpu Hpt.
  rewrite (login_success_eq _ _ _ _ _ _ _ Hcall Hdata Htruthy Hu Ht).
  cbn [fst snd]. split; [reflexivity |]. split; [reflexivity |].
  rewrite mount_auth_selected. cbn zeta.
  change (localStorage (dispatch ?x _)) with (localStorage x).
  change (sessionStorage (dispatch ?x _)) with (sessionStorage x).
  destruct (store_session_selected usr tok w1) as (_ & -> & ->).
  rewrite (parse_if_present_valid JSON_parse Hempty _ _ Hpt).
  rewrite (parse_if_present_valid JSON_parse Hempty _ _ Hpu).
  cbn. rewrite Htt, Htu. reflexivity.
Qed.

(** [useLogin] sets the "remember me" flag only after [login] has written
    the session.  A login with [rememberMe] while the flag was not set
    therefore leaves the pair in [sessionStorage] and the flag in
    [localStorage]: the session is authenticated now, and the next start of
    the provider, which reads [localStorage], finds none. *)
Theorem first_remembered_login_not_restored (authService_login : ServiceCall)
    (w w1 : World) (response data usr tok : JS.Value) :
  authService_login (dispatch w LOGIN_START) = (w1, Resolved response) ->
  ok_and_data response = JS.Normal data ->
  JS.truthy data = true ->
  JS.get data "user" = Some usr ->
  JS.get data "token" = Some tok ->
  remember_me (localStorage w1) = false ->
  let w' := fst (useLogin_login true authService_login w) in
  snd (useLogin_login true authService_login w) = Success
  /\ isAuthenticated (auth w') = true
  /\ remember_me (localStorage w') = true
  /\ localStorage w' !! "admin_token" = None
  /\ sessionStorage w' !! "admin_token" = Some (stringify_item tok)
  /\ auth (mount (localStorage w') (sessionStorage w')) = logged_out.
Proof.
  intros Hcall Hdata Htruthy Hu Ht Hflag.
  unfold UseAuthManager.useLogin_login.
  rewrite (login_success_eq _ _ _ _ _ _ _ Hcall Hdata Htruthy Hu Ht).
  cbn [fst snd].
  unfold AuthContext.store_session. rewrite Hflag. cbn.
  assert (remember_me
            (<["admin_remember_me" := "true"]>
               (delete "admin_user" (delete "admin_token" (localStorage w1))))
          = true) as Hnow.
  { unfold remember_me. apply bool_decide_eq_true. by simplify_map_eq. }
  repeat split; try (by simplify_map_eq); try exact Hnow.
  apply mount_without_pair. rewrite Hnow. by simplify_map_eq.
Qed.

(** [login] ends in one of two ways: it returns normally and the session is
    authenticated, not loading and without error; or it rethrows an error and
    the session is logged out, not loading, with that error's message, the
    storage areas being as the service call left them. *)
Theorem login_outcome (authService_login : ServiceCall) (w : World) :
  let w1 := fst (authService_login (dispatch w LOGIN_START)) in
  let w' := fst (login authService_login w) in
  match snd (login authService_login w) with
  | None =>
      isAuthenticated (auth w') = true
      /\ loading (auth w') = false
      /\ error (auth w') = None
  | Some e =>
      auth w' = {| user := None; token := None; isAuthenticated := false;
                   loading := false;
                   error := Some (message engine_message e) |}
      /\ localStorage w' = localStorage w1
      /\ sessionStorage w' = sessionStorage w1
  end.
Proof.
  cbn zeta. unfold AuthContext.login.
  destruct (authService_login (dispatch w LOGIN_START)) as [w1 o]. cbn [fst].
  destruct (login_try JSON_stringify ToString o w1) as [w2 | e] eqn:Htry;
    cbn [fst snd]; [| repeat split].
  destruct o as [response | e]; cbn in Htry; [| discriminate].
  destruct (ok_and_data response) as [data |]; cbn in Htry; [| discriminate].
  destruct (JS.truthy data).
  - destruct (read data "user") as [usr |]; cbn in Htry; [| discriminate].
    destruct (read data "token") as [tok |]; cbn in Htry; [| discriminate].
    injection Htry as <-. repeat split.
  - destruct (read response "error"); cbn in Htry; discriminate.
Qed.

Lemma logout_absorbs (w : World) :
  logout (logout w) = logout w /\ logout (Api.clearAuthData w) = logout w.
Proof.
  unfold logout, Api.clearAuthData, dispatch, set_sessionStorage,
    set_localStorage; cbn.
  split; f_equal; apply map_eq; intros k;
    destruct (decide (k = "admin_user")) as [Hu | ?];
    destruct (decide (k = "admin_token")) as [Ht | ?];
    subst; by simplify_map_eq.
Qed.

(** [logout] is idempotent on the whole world: reducer state and both
    storage areas. *)
Theorem logout_idempotent (w : World) : logout (logout w) = logout w.
Proof.
  exact (proj1 (logout_absorbs w)).
Qed.

(** After a successful [login] the pair is in the store the flag selects,
    and the other store holds neither a token nor a user, whatever it held
    before. *)
Theorem login_clears_other_store (authService_login : ServiceCall)
    (w w1 : World) (response data usr tok : JS.Value) :
  authService_login (dispatch w LOGIN_START) = (w1, Resolved response) ->
  ok_and_data response = JS.Normal data ->
  JS.truthy data = true ->
  JS.get data "user" = Some usr ->
  JS.get data "token" = Some tok ->
  let w' := fst (login authService_login w) in
  let remember := remember_me (localStorage w1) in
  selected remember w' !! "admin_token" = Some (stringify_item tok)
  /\ selected remember w' !! "admin_user" = Some (stringify_item usr)
  /\ selected (negb remember) w' !! "admin_token" = None
  /\ selected (negb remember) w' !! "admin_user" = None.
Proof.
  intros Hcall Hdata Htruthy Hu Ht.
  rewrite (login_success_eq _ _ _ _ _ _ _ Hcall Hdata Htruthy Hu Ht).
  cbn [fst]. unfold AuthContext.store_session, selected.
  destruct (remember_me (localStorage w1)); cbn;
    repeat split; by simplify_map_eq.
Qed.

(** [useLogout] leaves nothing a restart could restore: the flag and the
    four session entries are gone, the session is logged out, and the
    provider starts logged out on these stores. *)
Theorem useLogout_leaves_no_session (redirectTo : option string) (w : World) :
  let '(w', location, result) := useLogout_logout redirectTo w in
  result = Success
  /\ auth w' = logged_out
  /\ localStorage w' !! "admin_remember_me" = None
  /\ localStorage w' !! "admin_token" = None
  /\ localStorage w' !! "admin_user" = None
  /\ sessionStorage w' !! "admin_token" = None
  /\ sessionStorage w' !! "admin_user" = None
  /\ auth (mount (localStorage w') (sessionStorage w')) = logged_out
  /\ (forall k, k <> "admin_remember_me" -> k <> "admin_token" ->
                k <> "admin_user" ->
                localStorage w' !! k = localStorage w !! k).
Proof.
  unfold useLogout_logout, logout; cbn.
  repeat split; try by simplify_map_eq.
  - apply mount_without_pair; cbn.
    destruct (remember_me _); by simplify_map_eq.
  - intros k H1 H2 H3. by simplify_map_eq.
Qed.

End SessionFacts.

(** ** The API client *)

Section ApiFacts.

Import AuthContext UseAuthManager.

Variable JSON_parse : string -> option JS.Value.
Variable JSON_stringify : JS.Value -> option string.
Variable ToString : JS.Value -> string.
Variable engine_message : JS.Exception -> string.
Variable on_auth_logout : World -> World.

Local Abbreviation apiRequest :=
  (Api.apiRequest ToString engine_message on_auth_logout).
Local Abbreviation authService :=
  (Api.authService ToString engine_message on_auth_logout).
Local Abbreviation login :=
  (AuthContext.login JSON_stringify ToString engine_message).
Local Abbreviation stringify_item := (AuthContext.stringify_item JSON_stringify).
Local Abbreviation Authorization := (Api.Authorization JSON_parse ToString).
Local Abbreviation refreshToken := (UseAuthManager.refreshToken JSON_stringify).
Local Abbreviation handleTokenExpiration :=
  (UseAuthManager.handleTokenExpiration JSON_stringify).

(** Whatever the request settles with, the response [apiRequest] resolves
    with has a defined [ok], and [response.ok && response.data] can be
    evaluated on it without a TypeError: the [catch] blocks of its callers
    are not reached through it. *)
Theorem apiRequest_response_shape (r : Api.AxiosResult) (w : World) :
  let response := snd (apiRequest r w) in
  (exists ok, JS.get response "ok" = Some ok /\ ok <> JS.Undefined)
  /\ (exists v, ok_and_data response = JS.Normal v).
Proof.
  cbn zeta. unfold Api.apiRequest.
  destruct r as [body | resp msg].
  - unfold read.
    destruct body as [| | b | n | s | items | fields]; cbn;
      try (split; eexists; [split; [reflexivity | discriminate] | reflexivity]).
    destruct (JS.lookup_field "ok" fields) as [| | b | n | s | items | fs]
      eqn:Hok; cbn.
    1: split; eexists; [split; [reflexivity | discriminate] | reflexivity].
    all: unfold ok_and_data, read; cbn; rewrite Hok; cbn.
    all: split; [eexists; split; [reflexivity | discriminate] |].
    all: try (eexists; reflexivity).
    + destruct b; eexists; reflexivity.
    + destruct (JS.truthy_number n); eexists; reflexivity.
    + destruct (negb (String.eqb s "")); eexists; reflexivity.
  - destruct (Api.responseError ToString on_auth_logout resp w) as [w1 e].
    cbn. split; eexists; [split; [reflexivity | discriminate] | reflexivity].
Qed.

(** When the callers' success test [response.ok && response.data] passes on
    what [apiRequest] resolves with: never for a rejected request or a null
    body; for a body that has its own [ok], as that body says; for any other
    body, when the body itself is truthy (an empty body counts as a
    failure). *)
Theorem apiRequest_success (r : Api.AxiosResult) (w : World) :
  refresh_succeeded (Resolved (snd (apiRequest r w)))
  = match r with
    | Api.Rejected _ _ => false
    | Api.Fulfilled body =>
        match JS.get body "ok" with
        | None => false
        | Some ok =>
            if Api.is_undefined ok
            then JS.truthy body
            else refresh_succeeded (Resolved body)
        end
    end.
Proof.
  unfold Api.apiRequest.
  destruct r as [body | resp msg].
  - unfold read. destruct (JS.get body "ok") as [ok |] eqn:Hok; cbn.
    + destruct (Api.is_undefined ok); cbn; reflexivity.
    + reflexivity.
  - destruct (Api.responseError ToString on_auth_logout resp w) as [w1 e].
    reflexivity.
Qed.

(** A login over a dead network: the session ends logged out with the
    client's own message as error, both storage areas are untouched, and the
    error is rethrown.  When the backend answers an error status other than
    401 with a body whose [error] is a non-empty string, that string is the
    message. *)
Theorem login_failure_message (w : World) :
  (forall s, ToString (JS.Str s) = s) ->
  (forall axios_message,
      login (authService (Api.Rejected None axios_message)) w
      = (dispatch (dispatch w LOGIN_START)
           (LOGIN_FAILURE "Network error. Please check your connection."),
         Some (JS.Error "Network error. Please check your connection.")))
  /\ (forall status fields text axios_message,
      Z.eqb status 401 = false ->
      JS.lookup_field "error" fields = JS.Str text ->
      text <> "" ->
      login (authService
               (Api.Rejected (Some (status, JS.Obj fields)) axios_message)) w
      = (dispatch (dispatch w LOGIN_START) (LOGIN_FAILURE text),
         Some (JS.Error text))).
Proof.
  intros HToString. split.
  - intros axios_message.
    unfold AuthContext.login, Api.authService, Api.apiRequest; cbn.
    rewrite HToString. reflexivity.
  - intros status fields text axios_message Hstatus Herr Hne.
    assert (negb (String.eqb text "") = true) as Htruthy.
    { destruct (String.eqb_spec text ""); [contradiction | reflexivity]. }
    unfold AuthContext.login, Api.authService, Api.apiRequest,
      Api.responseError, Api.apiError_text, read; cbn.
    rewrite Hstatus, Herr; cbn. rewrite Htruthy; cbn.
    unfold JS.or; cbn. rewrite Htruthy; cbn.
    rewrite !HToString. unfold JS.or; cbn. rewrite Htruthy.
    rewrite HToString. reflexivity.
Qed.

Lemma read_token_present (storage : Storage) (raw : string)
    (tok keep : JS.Value) :
  JSON_parse "" = None ->
  storage !! "admin_token" = Some raw ->
  JSON_parse raw = Some tok ->
  Api.read_token JSON_parse storage keep = tok.
Proof.
  intros Hempty Hraw Hparse. unfold Api.read_token. rewrite Hraw.
  unfold truthy_raw.
  destruct (String.eqb_spec raw "") as [-> | _]; [congruence |].
  cbn. rewrite Hparse. reflexivity.
Qed.

Lemma read_token_absent (storage : Storage) (keep : JS.Value) :
  JSON_parse "null" = Some JS.Null ->
  storage !! "admin_token" = None ->
  Api.read_token JSON_parse storage keep = JS.Null.
Proof.
  intros Hnull Hraw. unfold Api.read_token. rewrite Hraw, Hnull. reflexivity.
Qed.

(** After [logout], and after the purge done on a 401, the request
    interceptor finds no token: requests carry no Authorization header. *)
Theorem no_authorization_after_logout (w : World) :
  JSON_parse "null" = Some JS.Null ->
  Authorization (logout w) = None
  /\ Authorization (Api.clearAuthData w) = None.
Proof.
  intros Hnull.
  unfold Api.Authorization, Api.request_token, logout, Api.clearAuthData; cbn.
  rewrite !(read_token_absent _ _ Hnull) by by simplify_map_eq.
  cbn. auto.
Qed.



(** When the entry of [localStorage] is not empty and is no JSON, the
    interceptor falls back to [sessionStorage]: a truthy token there is sent,
    and with a malformed entry there too no header is set. *)
Theorem authorization_falls_back (w : World) (bad : string) :
  JSON_parse "" = None ->
  localStorage w !! "admin_token" = Some bad ->
  bad <> "" ->
  JSON_parse bad = None ->
  (forall raw tok,
      sessionStorage w !! "admin_token" = Some raw ->
      JSON_parse raw = Some tok ->
      JS.truthy tok = true ->
      Authorization w = Some ("Bearer " +:+ ToString tok))
  /\ (forall raw,
      sessionStorage w !! "admin_token" = Some raw ->
      raw <> "" ->
      JSON_parse raw = None ->
      Authorization w = None).
Proof.
  intros Hempty Hbad Hne Hparse.
  assert (Api.read_token JSON_parse (localStorage w) JS.Null = JS.Null)
    as Hlocal.
  { unfold Api.read_token. rewrite Hbad. unfold truthy_raw.
    destruct (String.eqb_spec bad ""); [contradiction |].
    cbn. rewrite Hparse. reflexivity. }
  split.
  - intros raw tok Hraw Hp Ht.
    unfold Api.Authorization, Api.request_token. rewrite Hlocal; cbn.
    rewrite (read_token_present _ _ _ _ Hempty Hraw Hp), Ht. reflexivity.
  - intros raw Hraw Hrne Hp.
    unfold Api.Authorization, Api.request_token. rewrite Hlocal; cbn.
    unfold Api.read_token. rewrite Hraw. unfold truthy_raw.
    destruct (String.eqb_spec raw ""); [contradiction |].
    cbn. rewrite Hp. reflexivity.
Qed.



End ApiFacts.

(** ** Refresh and validation, the paths that succeed *)

Section RefreshFacts.

Import AuthContext UseAuthManager.

Variable JSON_parse : string -> option JS.Value.
Variable JSON_stringify : JS.Value -> option string.
Variable setToStorage : string -> JS.Value -> World -> World.
Variable engine_message : JS.Exception -> string.

Local Abbreviation mount := (AuthContext.mount JSON_parse).
Local Abbreviation stringify_item := (AuthContext.stringify_item JSON_stringify).
Local Abbreviation refreshToken := (UseAuthManager.refreshToken JSON_stringify).
Local Abbreviation refreshToken_try :=
  (UseAuthManager.refreshToken_try JSON_stringify).
Local Abbreviation handleTokenExpiration :=
  (UseAuthManager.handleTokenExpiration JSON_stringify).
Local Abbreviation validateSession :=
  (UseAuthManager.validateSession JSON_stringify setToStorage).
Local Abbreviation handleRefreshToken :=
  (Settings.handleRefreshToken JSON_stringify engine_message).
Local Abbreviation handleRefreshToken_try :=
  (Settings.handleRefreshToken_try JSON_stringify).

(** A truthy [response.ok && response.data] is [response.data], read after a
    truthy [response.ok]. *)
Lemma ok_and_data_truthy (response data : JS.Value) :
  ok_and_data response = JS.Normal data ->
  JS.truthy data = true ->
  exists ok,
    JS.get response "ok" = Some ok /\ JS.truthy ok = true
    /\ JS.get response "data" = Some data.
Proof.
  unfold ok_and_data, read.
  destruct (JS.get response "ok") as [ok |]; cbn; [| discriminate].
  destruct (JS.truthy ok) eqn:Hok.
  - destruct (JS.get response "data") as [d |]; [| discriminate].
    intros [= ->] _. eauto.
  - intros [= ->] Hd. congruence.
Qed.

Lemma refresh_succeeded_data (response : JS.Value) :
  refresh_succeeded (Resolved response) = true ->
  exists data, ok_and_data response = JS.Normal data /\ JS.truthy data = true.
Proof.
  unfold refresh_succeeded, ok_and_data, read.
  destruct (JS.get response "ok") as [ok |]; cbn; [| discriminate].
  destruct (JS.get response "data") as [data |]; cbn; [| discriminate].
  intros H. apply andb_prop in H as [-> Hd]. eauto.
Qed.

(** A refresh that succeeds changes one thing: the entry [admin_token] of
    [localStorage].  [handleTokenExpiration] reports true, and the reducer
    state, [sessionStorage] and every other entry of [localStorage] are as
    the service call left them. *)
Theorem successful_refresh_frame (auth_token : option JS.Value)
    (authService_refreshToken : ServiceCall) (w : World) :
  JS.truthy (JS.of_nullable auth_token) = true ->
  refresh_succeeded (snd (authService_refreshToken w)) = true ->
  let w1 := fst (authService_refreshToken w) in
  let w' := fst (handleTokenExpiration auth_token authService_refreshToken w) in
  snd (handleTokenExpiration auth_token authService_refreshToken w) = true
  /\ auth w' = auth w1
  /\ sessionStorage w' = sessionStorage w1
  /\ (forall k, k <> "admin_token" ->
                localStorage w' !! k = localStorage w1 !! k)
  /\ is_Some (localStorage w' !! "admin_token").
Proof.
  intros Htok Hok. cbn zeta.
  destruct (authService_refreshToken w) as [w1 o] eqn:Hcall. cbn [fst snd] in *.
  destruct o as [response | e]; [| discriminate].
  destruct (refresh_succeeded_data response Hok) as (data & Hdata & Htruthy).
  destruct (refreshToken_success JSON_stringify auth_token
              authService_refreshToken w w1 response data
              Htok Hcall Hdata Htruthy) as [renewed [_ Heq]].
  unfold UseAuthManager.handleTokenExpiration. rewrite Heq. cbn.
  repeat split.
  - intros k Hk. by rewrite lookup_insert_ne.
  - rewrite lookup_insert_eq. eauto.
Qed.

(** When the refresh response has truthy data without a [token], the hook
    still reports success and overwrites the stored credential with the text
    [undefined]; a remembered session then starts logged out the next time,
    that text being no JSON.  The Settings page, on the same response,
    writes nothing and shows an error. *)
Theorem refresh_response_without_token (auth_token : option JS.Value)
    (authService_refreshToken : ServiceCall) (w w1 : World)
    (response data : JS.Value) :
  JSON_stringify JS.Undefined = None ->
  JSON_parse "undefined" = None ->
  JS.truthy (JS.of_nullable auth_token) = true ->
  authService_refreshToken w = (w1, Resolved response) ->
  ok_and_data response = JS.Normal data ->
  JS.truthy data = true ->
  JS.get data "token" = Some JS.Undefined ->
  let w' := fst (refreshToken auth_token authService_refreshToken w) in
  snd (refreshToken auth_token authService_refreshToken w) = true
  /\ localStorage w' !! "admin_token" = Some "undefined"
  /\ (remember_me (localStorage w1) = true ->
      auth (mount (localStorage w') (sessionStorage w')) = logged_out)
  /\ fst (handleRefreshToken authService_refreshToken w) = w1
  /\ is_Some (snd (handleRefreshToken authService_refreshToken w)).
Proof.
  intros Hundef Hbad Htok Hcall Hdata Htruthy Hget. cbn zeta.
  destruct (refreshToken_success JSON_stringify auth_token
              authService_refreshToken w w1 response data
              Htok Hcall Hdata Htruthy) as [renewed [Hget' Heq]].
  assert (renewed = JS.Undefined) as -> by congruence.
  rewrite Heq. cbn [fst snd].
  unfold AuthContext.stringify_item. rewrite Hundef.
  split; [reflexivity |]. split; [cbn; by simplify_map_eq |]. split.
  - intros Hflag.
    rewrite mount_auth_selected. cbn zeta. cbn [localStorage set_localStorage].
    assert (remember_me (<["admin_token" := "undefined"]> (localStorage w1))
            = true) as ->.
    { unfold remember_me in *. apply bool_decide_eq_true.
      apply bool_decide_eq_true in Hflag. by simplify_map_eq. }
    rewrite lookup_insert_eq.
    unfold parse_if_present at 1, parse. cbn. rewrite Hbad. reflexivity.
  - destruct (ok_and_data_truthy response data Hdata Htruthy)
      as (ok & Hok & Htok' & Hd).
    unfold Settings.handleRefreshToken. rewrite Hcall.
    unfold Settings.handleRefreshToken_try, Settings.data_token, read.
    rewrite Hok; cbn. rewrite Htok'. rewrite Hd; cbn. rewrite Hget; cbn.
    destruct (JS.get response "error") as [err |] eqn:Herr; cbn.
    + split; [reflexivity | eauto].
    + split; [reflexivity | eauto].
Qed.

(** Whenever the Settings page stores a refreshed token, the hook's
    [refreshToken] stores the same text on the same response. *)
Theorem Settings_refresh_agrees_with_hook (o : ServiceOutcome) (w w' : World) :
  handleRefreshToken_try o w = JS.Normal (w', None) ->
  refreshToken_try o w = JS.Normal (w', true).
Proof.
  unfold Settings.handleRefreshToken_try, UseAuthManager.refreshToken_try,
    Settings.data_token, ok_and_data, read.
  destruct o as [res | e]; [| discriminate].
  destruct (JS.get res "ok") as [ok |]; cbn; [| discriminate].
  destruct (JS.truthy ok) eqn:Hok.
  - destruct (JS.get res "data") as [data |]; cbn; [| discriminate].
    destruct (JS.get data "token") as [t |] eqn:Ht; cbn.
    + destruct (JS.truthy t) eqn:Htt.
      * assert (JS.truthy data = true) as ->.
        { destruct data; cbn in *; try reflexivity; try discriminate;
            injection Ht as <-; discriminate. }
        intros [= <-]. reflexivity.
      * destruct (JS.get res "error"); cbn; discriminate.
    + destruct (JS.get res "error"); cbn; discriminate.
  - cbn. rewrite Hok. destruct (JS.get res "error"); cbn; discriminate.
Qed.

(** A validation that succeeds keeps the session's token and leaves it
    authenticated: when the identity received serialises like the one held,
    the world is untouched; otherwise the identity is replaced through
    [setUser]. *)
Theorem successful_validation (auth_token auth_user : option JS.Value)
    (authService_me : ServiceCall) (w w1 : World) (response data : JS.Value) :
  (forall k v w0, auth (setToStorage k v w0) = auth w0) ->
  JS.truthy (JS.of_nullable auth_token) = true ->
  authService_me w = (w1, Resolved response) ->
  ok_and_data response = JS.Normal data ->
  JS.truthy data = true ->
  let w' := fst (validateSession auth_token auth_user authService_me w) in
  snd (validateSession auth_token auth_user authService_me w) = true
  /\ token (auth w') = token (auth w1)
  /\ (JSON_stringify (JS.of_nullable auth_user) = JSON_stringify data ->
      w' = w1)
  /\ (JSON_stringify (JS.of_nullable auth_user) <> JSON_stringify data ->
      user (auth w') = Some data /\ isAuthenticated (auth w') = true).
Proof.
  intros Hframe Htok Hcall Hdata Htruthy. cbn zeta.
  unfold UseAuthManager.validateSession. rewrite Htok, Hcall; cbn.
  rewrite Hdata; cbn. rewrite Htruthy.
  case_bool_decide as Hsame; cbn.
  - repeat split; intros; try contradiction; reflexivity.
  - unfold setUser; cbn. rewrite Hframe.
    repeat split; intros; try contradiction; reflexivity.
Qed.

(** A scheduled refresh answered with status 401 logs out twice, once
    through the client's [auth:logout] event and once in
    [handleTokenExpiration]; the world after it is the one a single [logout]
    gives. *)
Theorem unauthorized_refresh_is_one_logout (ToString : JS.Value -> string)
    (body : JS.Value) (axios_message : string) (w : World) :
  isAuthenticated (auth w) = true ->
  JS.truthy (JS.of_nullable (token (auth w))) = true ->
  let call := Api.authService ToString engine_message handleLogoutEvent
                (Api.Rejected (Some (401%Z, body)) axios_message) in
  fst (call w) = logout w
  /\ UseAuthManager.refreshInterval JSON_stringify call w = logout w.
Proof.
  intros Hauth Htok. cbn zeta.
  destruct (client_unauthorized ToString engine_message body axios_message w)
    as [e He].
  destruct (logout_absorbs w) as [Hidem Hpurge].
  rewrite He. cbn [fst]. split; [exact Hpurge |].
  unfold UseAuthManager.refreshInterval, UseAuthManager.handleTokenExpiration,
    UseAuthManager.refreshToken.
  rewrite Hauth, Htok; cbn -[logout Api.authService]. rewrite He.
  cbn -[logout]. rewrite Hpurge, Hidem. reflexivity.
Qed.

End RefreshFacts.

(** ** Configuration *)

(** [validateConfig] passes exactly when [config.apiBaseUrl] is the value of
    the environment: otherwise the variable is unset or empty, the base URL
    is the localhost default, and the error names the variable. *)
Theorem validateConfig_apiBaseUrl (env : Config.Env) :
  (Config.validateConfig env = JS.Normal tt
   /\ env !! "VITE_API_BASE_URL" = Some (Config.apiBaseUrl env)
   /\ Config.apiBaseUrl env <> "")
  \/ (Config.validateConfig env
      = JS.Throw (JS.Error
          "Missing required environment variables: VITE_API_BASE_URL")
      /\ Config.apiBaseUrl env = "http://localhost:8000/api"
      /\ (env !! "VITE_API_BASE_URL" = None
          \/ env !! "VITE_API_BASE_URL" = Some "")).
Proof.
  unfold Config.validateConfig, Config.missing, Config.apiBaseUrl,
    Config.env_or; cbn.
  destruct (env !! "VITE_API_BASE_URL") as [s |]; cbn.
  - destruct (String.eqb_spec s "") as [-> | Hne]; cbn.
    + right. auto.
    + left. auto.
  - right. auto.
Qed.

(** ** The further properties on the sample platform *)

(** A tab-scoped login is restored from [sessionStorage]. *)
Lemma login_then_restart_witness :
  let w' := fst (AuthContext.login Sample.JSON_stringify Sample.ToString
                   Sample.engine_message (Sample.client Sample.signed_in)
                   Sample.fresh) in
  snd (AuthContext.login Sample.JSON_stringify Sample.ToString
         Sample.engine_message (Sample.client Sample.signed_in) Sample.fresh)
  = None
  /\ AuthContext.auth w'
     = {| AuthContext.user := Some Sample.admin;
          AuthContext.token := Some (JS.Str "old");
          AuthContext.isAuthenticated := true;
          AuthContext.loading := false;
          AuthContext.error := None |}
  /\ AuthContext.auth
       (AuthContext.mount Sample.JSON_parse (AuthContext.localStorage w')
          (AuthContext.sessionStorage w'))
     = AuthContext.auth w'.
Proof.
  eapply (login_then_restart Sample.JSON_parse Sample.JSON_stringify
            Sample.ToString Sample.engine_message
            (Sample.client Sample.signed_in) Sample.fresh);
    reflexivity.
Defined.

(** The first login with "remember me" in a fresh browser. *)
Lemma first_remembered_login_not_restored_witness :
  let w' := fst (UseAuthManager.useLogin_login Sample.JSON_stringify
                   Sample.ToString Sample.engine_message true
                   (Sample.client Sample.signed_in) Sample.fresh) in
  AuthContext.isAuthenticated (AuthContext.auth w') = true
  /\ AuthContext.auth
       (AuthContext.mount Sample.JSON_parse (AuthContext.localStorage w')
          (AuthContext.sessionStorage w'))
     = AuthContext.logged_out.
Proof.
  pose proof (first_remembered_login_not_restored Sample.JSON_parse
                Sample.JSON_stringify Sample.ToString Sample.engine_message
                (Sample.client Sample.signed_in) Sample.fresh _ _ _ _ _
                eq_refl eq_refl eq_refl eq_refl eq_refl eq_refl) as H.
  cbn zeta in H. split; [apply H | apply H].
Defined.

Lemma login_failure_message_witness :
  AuthContext.login Sample.JSON_stringify Sample.ToString
    Sample.engine_message
    (Api.authService Sample.ToString Sample.engine_message
       UseAuthManager.handleLogoutEvent
       (Api.Rejected None "timeout of 30000ms exceeded"))
    Sample.fresh
  = (AuthContext.dispatch (AuthContext.dispatch Sample.fresh AuthContext.LOGIN_START)
       (AuthContext.LOGIN_FAILURE "Network error. Please check your connection."),
     Some (JS.Error "Network error. Please check your connection.")).
Proof.
  apply (proj1 (login_failure_message Sample.JSON_stringify Sample.ToString
                  Sample.engine_message UseAuthManager.handleLogoutEvent
                  Sample.fresh (fun s => eq_refl))).
Defined.

Lemma no_authorization_after_logout_witness :
  Api.Authorization Sample.JSON_parse Sample.ToString
    (AuthContext.logout Sample.tab_session)
  = None.
Proof.
  apply (proj1 (no_authorization_after_logout Sample.JSON_parse
                  Sample.ToString Sample.tab_session eq_refl)).
Defined.



Lemma successful_refresh_frame_witness :
  snd (UseAuthManager.handleTokenExpiration Sample.JSON_stringify
         (Some (JS.Str "old")) (Sample.client Sample.refreshed)
         Sample.tab_session)
  = true.
Proof.
  apply (proj1 (successful_refresh_frame Sample.JSON_stringify
                  (Some (JS.Str "old")) (Sample.client Sample.refreshed)
                  Sample.tab_session eq_refl eq_refl)).
Defined.

Lemma refresh_response_without_token_witness :
  AuthContext.localStorage
    (fst (UseAuthManager.refreshToken Sample.JSON_stringify
            (Some (JS.Str "old"))
            (Sample.client Sample.refreshed_without_token)
            Sample.tab_session))
  !! "admin_token"
  = Some "undefined".
Proof.
  eapply (proj1 (proj2 (refresh_response_without_token Sample.JSON_parse
                          Sample.JSON_stringify Sample.engine_message
                          (Some (JS.Str "old"))
                          (Sample.client Sample.refreshed_without_token)
                          Sample.tab_session _ _ _
                          eq_refl eq_refl eq_refl eq_refl eq_refl eq_refl
                          eq_refl))).
Defined.

Lemma Settings_refresh_agrees_with_hook_witness :
  UseAuthManager.refreshToken_try Sample.JSON_stringify
    (snd (Sample.client Sample.refreshed Sample.tab_session))
    Sample.tab_session
  = JS.Normal
      (AuthContext.set_localStorage Sample.tab_session
         (<["admin_token" := Sample.quoted "new"]>
            (AuthContext.localStorage Sample.tab_session)),
       true).
Proof.
  apply (Settings_refresh_agrees_with_hook Sample.JSON_stringify).
  reflexivity.
Defined.

(** The identity is replaced and the token kept. *)
Lemma successful_validation_witness :
  let w' := fst (UseAuthManager.validateSession Sample.JSON_stringify
                   Sample.setToStorage (Some (JS.Str "old"))
                   (Some Sample.admin) (Sample.client Sample.renamed)
                   Sample.tab_session) in
  AuthContext.token (AuthContext.auth w') = Some (JS.Str "old")
  /\ AuthContext.user (AuthContext.auth w') = Some (JS.Str "renamed").
Proof.
  pose proof (successful_validation Sample.JSON_stringify Sample.setToStorage
                (Some (JS.Str "old")) (Some Sample.admin)
                (Sample.client Sample.renamed) Sample.tab_session _ _ _
                (fun k v w0 => eq_refl) eq_refl eq_refl eq_refl eq_refl) as H.
  cbn zeta in H. destruct H as (_ & Ht & _ & Hu).
  split; [exact Ht |].
  apply Hu. discriminate.
Defined.

Lemma login_clears_other_store_witness :
  let w' := fst (AuthContext.login Sample.JSON_stringify Sample.ToString
                   Sample.engine_message (Sample.client Sample.signed_in)
                   {| AuthContext.auth := AuthContext.logged_out;
                      AuthContext.localStorage :=
                        <["admin_token" := Sample.quoted "stale"]> ∅;
                      AuthContext.sessionStorage := ∅ |}) in
  AuthContext.sessionStorage w' !! "admin_token" = Some (Sample.quoted "old")
  /\ AuthContext.localStorage w' !! "admin_token" = None.
Proof.
  pose proof (login_clears_other_store Sample.JSON_stringify Sample.ToString
                Sample.engine_message (Sample.client Sample.signed_in)
                {| AuthContext.auth := AuthContext.logged_out;
                   AuthContext.localStorage :=
                     <["admin_token" := Sample.quoted "stale"]> ∅;
                   AuthContext.sessionStorage := ∅ |}
                _ _ _ _ _ eq_refl eq_refl eq_refl eq_refl eq_refl) as H.
  cbn zeta in H. destruct H as (Ht & _ & Ho & _).
  split; [exact Ht | exact Ho].
Defined.

(** After the hook stored the text [undefined] in the tab-scoped session,
    requests fall back to the token of [sessionStorage]. *)
Lemma authorization_falls_back_witness :
  Api.Authorization Sample.JSON_parse Sample.ToString
    (fst (UseAuthManager.refreshToken Sample.JSON_stringify
            (Some (JS.Str "old"))
            (Sample.client Sample.refreshed_without_token)
            Sample.tab_session))
  = Some "Bearer old".
Proof.
  apply (proj1 (authorization_falls_back Sample.JSON_parse Sample.ToString
                  (fst (UseAuthManager.refreshToken Sample.JSON_stringify
                          (Some (JS.Str "old"))
                          (Sample.client Sample.refreshed_without_token)
                          Sample.tab_session))
                  "undefined" eq_refl eq_refl ltac:(discriminate) eq_refl)
           (Sample.quoted "old") (JS.Str "old"));
    reflexivity.
Defined.

Lemma unauthorized_refresh_is_one_logout_witness :
  UseAuthManager.refreshInterval Sample.JSON_stringify
    (Sample.client Sample.unauthorized) Sample.tab_session
  = AuthContext.logout Sample.tab_session.
Proof.
  apply (proj2 (unauthorized_refresh_is_one_logout Sample.JSON_stringify
                  Sample.engine_message Sample.ToString
                  (JS.Obj [("message", JS.Str "Unauthenticated.")])
                  "Request failed with status code 401"
                  Sample.tab_session eq_refl eq_refl)).
Defined.
